(** * Meta Grafana Dashboard: the snapshot model and the delta computation

    A shallow embedding of [main.py]: the helpers that normalise one raw
    insight record ([extract_action_value], [extract_cost_per_action],
    [calculate_cpl]), the [/collect] handler that builds and stores a
    snapshot, and the [/intraday/{level}] handler that diffs the two most
    recent snapshots.

    Python values are modelled as follows.
    - [int] is [Z]; [float] is an IEEE-754 binary64 datum, [spec_float] of
      the Standard Library with [prec = 53] and [emax = 1024].
    - [str] is [string] (a byte string: the inputs considered are ASCII).
    - An exception is a value of [exn]; a computation that may raise
      returns [result].
    - The raw records of the Graph API are typed after its schema and the
      source's type hints: ids and names are optional strings (absent key
      or JSON null), numeric fields are JSON scalars, [actions] and
      [cost_per_action_type] are optional lists of small dictionaries.
    - The Firestore collection is a list of documents by id, passed in and
      out of the handlers; its integers are 64-bit.  Reading and writing
      it do not fail in this model.
    - The exchange with the Graph API is a function from the level to the
      outcome of the request; the clock is an argument of [collect].
    Logging, CORS and the health endpoints play no part and are left
    out. *)

From Stdlib Require Import ZArith List String Ascii Bool Lia.
From Stdlib Require Import Floats.SpecFloat.
Import ListNotations.

Open Scope string_scope.
Open Scope Z_scope.

(** ** Exceptions *)

Inductive exn : Type :=
| ValueError
| OverflowError
| ZeroDivisionError
| RequestException                 (* anything [requests] or [response.json] raises *)
| HTTPException (status_code : Z).

Inductive result (A : Type) : Type :=
| Ok (a : A)
| Raise (e : exn).

Arguments Ok {A} a.
Arguments Raise {A} e.

Definition bind {A B : Type} (c : result A) (k : A -> result B) : result B :=
  match c with
  | Ok a => k a
  | Raise e => Raise e
  end.

Notation "x <- c ;; k" := (bind c (fun x => k))
  (at level 61, c at next level, right associativity).

(** [for x in xs: ... append ...]: the loop body runs on every element in
    order and the first exception leaves the loop. *)
Fixpoint for_each {A B : Type} (body : A -> result B) (xs : list A)
  : result (list B) :=
  match xs with
  | [] => Ok []
  | x :: xs' =>
      y <- body x ;;
      ys <- for_each body xs' ;;
      Ok (y :: ys)
  end.

(** ** Python numbers *)

Module Float.

Definition float : Type := spec_float.

Definition prec : Z := 53.
Definition emax : Z := 1024.

Definition zero : float := S754_zero false.

Definition sub (x y : float) : float := SFsub prec emax x y.
Definition div (x y : float) : float := SFdiv prec emax x y.
Definition ltb (x y : float) : bool := SFltb x y.
Definition leb (x y : float) : bool := SFleb x y.
Definition eqb (x y : float) : bool := SFeqb x y.

(** The correctly rounded (nearest, ties to even) value of [m * 2^e]. *)
Definition round (m e : Z) : float := binary_normalize prec emax m e false.

(** The first integer magnitude that rounds past the largest double,
    [2^1024 - 2^970]. *)
Definition overflow_threshold : Z := 2 ^ 1024 - 2 ^ 970.

(** [float(n)] for an [int]: [PyLong_AsDouble] rounds to nearest and
    raises [OverflowError] when the rounded value is out of range. *)
Definition of_int (n : Z) : result float :=
  if Z.abs n <? overflow_threshold then Ok (round n 0)
  else Raise OverflowError.

(** [int(x)] for a [float]: truncation towards zero. *)
Definition to_int (x : float) : result Z :=
  match x with
  | S754_nan => Raise ValueError
  | S754_infinity _ => Raise OverflowError
  | S754_zero _ => Ok 0
  | S754_finite s m e => Ok (cond_Zopp s (Z.shiftl (Zpos m) e))
  end.

(** [y == 0.0], true of both zeros. *)
Definition is_zero (x : float) : bool :=
  match x with
  | S754_zero _ => true
  | _ => false
  end.

(** [x / n] with a [float] on the left and an [int] on the right
    ([float_div]): the right operand is converted, a zero divisor raises,
    otherwise the quotient is the IEEE one. *)
Definition truediv (x y : float) : result float :=
  if is_zero y then Raise ZeroDivisionError else Ok (div x y).

Definition truediv_int (x : float) (n : Z) : result float :=
  y <- of_int n ;;
  truediv x y.

(** *** [float(s)] for a [str] *)

Definition code (c : ascii) : Z := Z.of_nat (nat_of_ascii c).

Definition is_digit (c : ascii) : bool :=
  (48 <=? code c) && (code c <=? 57).

(** [Py_ISSPACE]: tab, line feed, vertical tab, form feed, carriage
    return and space. *)
Definition is_space (c : ascii) : bool :=
  ((9 <=? code c) && (code c <=? 13)) || (code c =? 32).

Definition is_char (c d : ascii) : bool := Ascii.eqb c d.

(** [Py_TOLOWER] on an ASCII letter. *)
Definition to_lower (c : ascii) : ascii :=
  if (65 <=? code c) && (code c <=? 90)
  then ascii_of_nat (nat_of_ascii c + 32)
  else c.

(** [_Py_string_to_number_with_underscores]: an underscore is legal only
    between two digits; legal ones are dropped. *)
Fixpoint strip_underscores (prev : ascii) (s : list ascii)
  : option (list ascii) :=
  match s with
  | [] => if is_char prev "_" then None else Some []
  | c :: rest =>
      if is_char c "_" then
        if is_digit prev then strip_underscores c rest else None
      else if is_char prev "_" && negb (is_digit c) then None
      else option_map (cons c) (strip_underscores c rest)
  end.

Fixpoint lstrip (s : list ascii) : list ascii :=
  match s with
  | c :: rest => if is_space c then lstrip rest else s
  | [] => []
  end.

Definition strip (s : list ascii) : list ascii :=
  rev (lstrip (rev (lstrip s))).

Fixpoint span_digits (s : list ascii) : list ascii * list ascii :=
  match s with
  | c :: rest =>
      if is_digit c
      then let '(ds, tl) := span_digits rest in (c :: ds, tl)
      else ([], s)
  | [] => ([], [])
  end.

Definition digits_value (ds : list ascii) : Z :=
  fold_left (fun acc c => 10 * acc + (code c - 48)) ds 0.

(** The double nearest to [m * 10^e], for [0 <= m].  A negative exponent
    is a division: the quotient is computed with 64 bits more than the
    divisor has, and a sticky bit records a non-zero remainder, so that
    the single rounding of [round] is the correct one. *)
Definition of_decimal (neg : bool) (m e : Z) : float :=
  if m =? 0 then S754_zero neg
  else if 0 <=? e then round (cond_Zopp neg (m * 10 ^ e)) 0
  else
    let d := 10 ^ (- e) in
    let k := 64 + Z.log2 d in
    let '(q, r) := Z.div_eucl (m * 2 ^ k) d in
    let sticky := if r =? 0 then 0 else 1 in
    round (cond_Zopp neg (2 * q + sticky)) (- k - 1).

Definition split_sign (s : list ascii) : bool * list ascii :=
  match s with
  | c :: rest =>
      if is_char c "-" then (true, rest)
      else if is_char c "+" then (false, rest)
      else (false, s)
  | [] => (false, [])
  end.

(** The exponent part: [e] or [E], an optional sign and at least one
    digit; when it is malformed nothing of it is consumed. *)
Definition parse_exponent (s : list ascii) : Z * list ascii :=
  match s with
  | c :: rest =>
      if is_char (to_lower c) "e" then
        let '(neg, rest') := split_sign rest in
        match span_digits rest' with
        | ([], _) => (0, s)
        | (ds, tl) => (cond_Zopp neg (digits_value ds), tl)
        end
      else (0, s)
  | [] => (0, [])
  end.

(** [_Py_dg_strtod]: the longest decimal prefix and what follows it;
    [None] when there is no digit. *)
Definition strtod (s : list ascii) : option (float * list ascii) :=
  let '(neg, s1) := split_sign s in
  let '(ip, s2) := span_digits s1 in
  let '(fp, s3) :=
    match s2 with
    | c :: rest => if is_char c "." then span_digits rest else ([], s2)
    | [] => ([], [])
    end in
  match (ip ++ fp)%list with
  | [] => None
  | ds =>
      let '(ex, s4) := parse_exponent s3 in
      Some (of_decimal neg (digits_value ds) (ex - Z.of_nat (List.length fp)), s4)
  end.

Fixpoint case_insensitive_match (s t : list ascii) : option (list ascii) :=
  match t with
  | [] => Some s
  | d :: t' =>
      match s with
      | c :: s' =>
          if is_char (to_lower c) d then case_insensitive_match s' t'
          else None
      | [] => None
      end
  end.

(** [_Py_parse_inf_or_nan] *)
Definition parse_inf_or_nan (s : list ascii) : option (float * list ascii) :=
  let '(neg, s1) := split_sign s in
  match case_insensitive_match s1 (list_ascii_of_string "inf") with
  | Some s2 =>
      match case_insensitive_match s2 (list_ascii_of_string "inity") with
      | Some s3 => Some (S754_infinity neg, s3)
      | None => Some (S754_infinity neg, s2)
      end
  | None =>
      match case_insensitive_match s1 (list_ascii_of_string "nan") with
      | Some s2 => Some (S754_nan, s2)
      | None => None
      end
  end.

(** [PyOS_string_to_double] *)
Definition string_to_double (s : list ascii) : option (float * list ascii) :=
  match strtod s with
  | Some r => Some r
  | None => parse_inf_or_nan s
  end.

(** [float_from_string_inner]: surrounding white space is dropped and the
    whole rest has to be a number. *)
Definition from_string_inner (s : list ascii) : result float :=
  match string_to_double (strip s) with
  | Some (x, []) => Ok x
  | _ => Raise ValueError
  end.

Definition of_string (s : string) : result float :=
  match strip_underscores Ascii.zero (list_ascii_of_string s) with
  | Some s' => from_string_inner s'
  | None => Raise ValueError
  end.

End Float.

(** A Python number, and a JSON scalar as the Graph API may deliver one. *)
Inductive number : Type :=
| Int (n : Z)
| Flt (x : Float.float).

Inductive scalar : Type :=
| Str (s : string)
| Num (n : number).

(** [float(v)] *)
Definition to_float (n : number) : result Float.float :=
  match n with
  | Int n => Float.of_int n
  | Flt x => Ok x
  end.

Definition py_float (v : scalar) : result Float.float :=
  match v with
  | Str s => Float.of_string s
  | Num n => to_float n
  end.

(** [x - y] with a [float] on the left. *)
Definition float_sub (x : Float.float) (y : number) : result Float.float :=
  y' <- to_float y ;;
  Ok (Float.sub x y').

(** [d.get(key, default)] on a field that may be missing. *)
Definition get {A : Type} (field : option A) (default : A) : A :=
  match field with
  | Some v => v
  | None => default
  end.

(** ** Configuration *)

Definition ACTION_TYPE : string :=
  "onsite_conversion.messaging_conversation_started_7d".

(** ** Raw records of the ads source *)

Module Raw.

(** One entry of [actions] or of [cost_per_action_type]. *)
Record action : Type := {
  action_type : option string;
  value : option scalar
}.

(** One insight record; a field is [None] when its key is missing. *)
Record item : Type := {
  campaign_id : option string;
  campaign_name : option string;
  adset_id : option string;
  adset_name : option string;
  ad_id : option string;
  ad_name : option string;
  spend : option scalar;
  actions : option (list action);
  cost_per_action_type : option (list action)
}.

End Raw.

(** [if not xs]: a missing or empty list is false. *)
Definition falsy {A : Type} (xs : option (list A)) : bool :=
  match xs with
  | None | Some [] => true
  | Some (_ :: _) => false
  end.

(** [action.get("action_type") == action_type] *)
Definition has_action_type (a : Raw.action) (action_type : string) : bool :=
  match Raw.action_type a with
  | Some t => String.eqb t action_type
  | None => false
  end.

(** The loop [for action in actions: if ...: return ...] leaves at the
    first entry that matches. *)
Fixpoint first_match (entries : list Raw.action) (action_type : string)
  : option Raw.action :=
  match entries with
  | [] => None
  | a :: rest =>
      if has_action_type a action_type then Some a
      else first_match rest action_type
  end.

Definition extract_action_value (actions : option (list Raw.action))
    (action_type : string) : result Z :=
  if falsy actions then Ok 0
  else
    match first_match (get actions []) action_type with
    | Some action =>
        x <- py_float (get (Raw.value action) (Num (Int 0))) ;;
        Float.to_int x
    | None => Ok 0
    end.

Definition extract_cost_per_action
    (cost_per_action_type : option (list Raw.action))
    (action_type : string) : result (option Float.float) :=
  if falsy cost_per_action_type then Ok None
  else
    match first_match (get cost_per_action_type []) action_type with
    | Some item =>
        x <- py_float (get (Raw.value item) (Num (Int 0))) ;;
        Ok (Some x)
    | None => Ok None
    end.

Definition calculate_cpl (spend : Float.float) (conv : Z)
    (cpa : option Float.float) : result (option Float.float) :=
  match cpa with
  | Some c => Ok (Some c)
  | None =>
      if 0 <? conv then
        x <- Float.truediv_int spend conv ;;
        Ok (Some x)
      else Ok None
  end.

(** ** Snapshots *)

Module Entry.

(** One record of a snapshot's level sequence. *)
Record t : Type := {
  id : option string;
  name : string;
  campaign_id : option string;
  adset_id : option string;
  spend : Float.float;
  conv : Z;
  cpl : option Float.float
}.

End Entry.

Record Snapshot : Type := {
  ts : string;
  date : string;
  campaign : list Entry.t;
  adset : list Entry.t;
  ad : list Entry.t
}.

(** [float(item.get("spend", 0))] *)
Definition spend_of (item : Raw.item) : result Float.float :=
  py_float (get (Raw.spend item) (Num (Int 0))).

(** The part every loop of [collect] shares. *)
Definition metrics (item : Raw.item)
  : result (Float.float * Z * option Float.float) :=
  spend <- spend_of item ;;
  conv <- extract_action_value (Raw.actions item) ACTION_TYPE ;;
  cpa <- extract_cost_per_action (Raw.cost_per_action_type item) ACTION_TYPE ;;
  cpl <- calculate_cpl spend conv cpa ;;
  Ok (spend, conv, cpl).

(** The bodies of the three loops of [collect]. *)
Definition campaign_entry (item : Raw.item) : result Entry.t :=
  m <- metrics item ;;
  let '(spend, conv, cpl) := m in
  Ok {| Entry.id := Raw.campaign_id item;
        Entry.name := get (Raw.campaign_name item) "";
        Entry.campaign_id := None;
        Entry.adset_id := None;
        Entry.spend := spend;
        Entry.conv := conv;
        Entry.cpl := cpl |}.

Definition adset_entry (item : Raw.item) : result Entry.t :=
  m <- metrics item ;;
  let '(spend, conv, cpl) := m in
  Ok {| Entry.id := Raw.adset_id item;
        Entry.name := get (Raw.adset_name item) "";
        Entry.campaign_id := Raw.campaign_id item;
        Entry.adset_id := None;
        Entry.spend := spend;
        Entry.conv := conv;
        Entry.cpl := cpl |}.

Definition ad_entry (item : Raw.item) : result Entry.t :=
  m <- metrics item ;;
  let '(spend, conv, cpl) := m in
  Ok {| Entry.id := Raw.ad_id item;
        Entry.name := get (Raw.ad_name item) "";
        Entry.campaign_id := Raw.campaign_id item;
        Entry.adset_id := Raw.adset_id item;
        Entry.spend := spend;
        Entry.conv := conv;
        Entry.cpl := cpl |}.

(** ** The clock *)

Record datetime : Type := {
  year : Z;
  month : Z;
  day : Z;
  hour : Z;
  minute : Z;
  second : Z;
  microsecond : Z
}.

(** The last [width] decimal digits of [n], in front of [acc]. *)
Fixpoint zfill (width : nat) (n : Z) (acc : string) : string :=
  match width with
  | O => acc
  | S w =>
      zfill w (n / 10)
        (String (ascii_of_nat (48 + Z.to_nat (n mod 10))) acc)
  end.

(** [now.strftime("%Y%m%d_%H%M")] *)
Definition strftime_doc_id (now : datetime) : string :=
  zfill 4 (year now) (zfill 2 (month now) (zfill 2 (day now)
    ("_" ++ zfill 2 (hour now) (zfill 2 (minute now) "")))).

(** [now.strftime("%Y-%m-%d")] *)
Definition strftime_date (now : datetime) : string :=
  zfill 4 (year now) ("-" ++ zfill 2 (month now) ("-" ++ zfill 2 (day now) "")).

(** [now.isoformat()] of a UTC time: the fraction is printed only when the
    microseconds are not zero. *)
Definition isoformat (now : datetime) : string :=
  strftime_date now ++ "T" ++
  zfill 2 (hour now) (":" ++ zfill 2 (minute now) (":" ++ zfill 2 (second now)
    ((if microsecond now =? 0 then "" else "." ++ zfill 6 (microsecond now) "")
     ++ "+00:00"))).

(** ** The snapshot store *)

(** The collection [intraday_snapshots]: documents by id. *)
Definition Store : Type := list (string * Snapshot).

(** [document(doc_id).set(snapshot)] creates or overwrites. *)
Fixpoint document_set (doc_id : string) (snapshot : Snapshot) (db : Store)
  : Store :=
  match db with
  | [] => [(doc_id, snapshot)]
  | (k, v) :: rest =>
      if String.eqb k doc_id then (k, snapshot) :: rest
      else (k, v) :: document_set doc_id snapshot rest
  end.

(** Descending order on [ts], ties on the document id. *)
Definition before (a b : string * Snapshot) : bool :=
  match String.compare (ts (snd a)) (ts (snd b)) with
  | Gt => true
  | Lt => false
  | Eq => match String.compare (fst a) (fst b) with
          | Lt => false
          | _ => true
          end
  end.

Fixpoint insert_desc (a : string * Snapshot) (l : Store) : Store :=
  match l with
  | [] => [a]
  | b :: rest => if before a b then a :: l else b :: insert_desc a rest
  end.

Definition order_by_ts_desc (db : Store) : Store :=
  fold_right insert_desc [] db.

(** [order_by("ts", DESCENDING).limit(n).stream()], each [to_dict()]. *)
Definition stream_recent (n : nat) (db : Store) : list Snapshot :=
  map snd (firstn n (order_by_ts_desc db)).

(** ** Authentication *)

Definition verify_api_key (API_KEY x_api_key : string) : result unit :=
  if String.eqb x_api_key API_KEY then Ok tt
  else Raise (HTTPException 401).

(** ** The ads source *)

(** One exchange with the Graph API for a level: the exception that
    [requests.get], [raise_for_status] or [response.json] raised, or the
    [data] member of the body, [None] when the body has none. *)
Definition Source : Type := string -> result (option (list Raw.item)).

Definition get_meta_insights (source : Source) (level : string)
  : result (list Raw.item) :=
  match source level with
  | Ok data => Ok (get data [])
  | Raise _ => Raise (HTTPException 500)
  end.

(** ** [POST /collect] *)

Record CollectResponse : Type := {
  status : string;
  doc_id : string;
  counts : nat * nat * nat
}.

(** The [try] block of [collect]: the answer and the store after it. *)
Definition collect_try (source : Source) (now : datetime) (db : Store)
  : result (CollectResponse * Store) :=
  let doc_id := strftime_doc_id now in
  campaigns <- get_meta_insights source "campaign" ;;
  adsets <- get_meta_insights source "adset" ;;
  ads <- get_meta_insights source "ad" ;;
  campaign_seq <- for_each campaign_entry campaigns ;;
  adset_seq <- for_each adset_entry adsets ;;
  ad_seq <- for_each ad_entry ads ;;
  let snapshot := {| ts := isoformat now;
                     date := strftime_date now;
                     campaign := campaign_seq;
                     adset := adset_seq;
                     ad := ad_seq |} in
  Ok ({| status := "success";
         doc_id := doc_id;
         counts := (List.length campaigns, List.length adsets,
                    List.length ads) |},
      document_set doc_id snapshot db).

(** The handler: an exception of the [try] block becomes a 500 and leaves
    the store as it was. *)
Definition collect (API_KEY x_api_key : string) (source : Source)
    (now : datetime) (db : Store) : result CollectResponse * Store :=
  match verify_api_key API_KEY x_api_key with
  | Raise e => (Raise e, db)
  | Ok _ =>
      match collect_try source now db with
      | Ok (response, db') => (Ok response, db')
      | Raise _ => (Raise (HTTPException 500), db)
      end
  end.

(** ** [GET /intraday/{level}] *)

Definition levels : list string := ["campaign"; "adset"; "ad"].

(** [snapshot.get(level, [])] *)
Definition level_records (snapshot : Snapshot) (level : string)
  : list Entry.t :=
  if String.eqb level "campaign" then campaign snapshot
  else if String.eqb level "adset" then adset snapshot
  else if String.eqb level "ad" then ad snapshot
  else [].

(** A [dict] keyed by record ids, in insertion order: setting a key that
    is present replaces its value and keeps its place. *)
Definition key : Type := option string.

Definition key_eqb (a b : key) : bool :=
  match a, b with
  | Some x, Some y => String.eqb x y
  | None, None => true
  | _, _ => false
  end.

Definition dict (V : Type) : Type := list (key * V).

Fixpoint dict_set {V : Type} (k : key) (v : V) (d : dict V) : dict V :=
  match d with
  | [] => [(k, v)]
  | (k', v') :: rest =>
      if key_eqb k' k then (k', v) :: rest
      else (k', v') :: dict_set k v rest
  end.

Fixpoint dict_get {V : Type} (k : key) (d : dict V) : option V :=
  match d with
  | [] => None
  | (k', v') :: rest => if key_eqb k' k then Some v' else dict_get k rest
  end.

(** [{item["id"]: item for item in records}] *)
Definition index_add (d : dict Entry.t) (item : Entry.t) : dict Entry.t :=
  dict_set (Entry.id item) item d.

Definition index_by_id (records : list Entry.t) : dict Entry.t :=
  fold_left index_add records [].

Module MetricItem.

(** One record of the answer. *)
Record t : Type := {
  id : option string;
  name : string;
  campaign_id : option string;
  adset_id : option string;
  spend_today : Float.float;
  conv_today : Z;
  cpl_today : option Float.float;
  spend_30m : Float.float;
  conv_30m : Z;
  cpl_30m : option Float.float
}.

End MetricItem.

(** [previous_items.get(item_id, {"spend": 0, "conv": 0})]: the two fields
    the loop reads. *)
Definition previous_of (previous_items : dict Entry.t) (item_id : key)
  : number * Z :=
  match dict_get item_id previous_items with
  | Some prev => (Flt (Entry.spend prev), Entry.conv prev)
  | None => (Int 0, 0)
  end.

(** The spend and the conversions the loop subtracts: those of the
    previous record with the id, zero when there is none. *)
Definition previous_spend (previous_items : dict Entry.t) (k : key)
  : Float.float :=
  match dict_get k previous_items with
  | Some prev => Entry.spend prev
  | None => Float.zero
  end.

Definition previous_conv (previous_items : dict Entry.t) (k : key) : Z :=
  match dict_get k previous_items with
  | Some prev => Entry.conv prev
  | None => 0
  end.

(** [(spend_30m / conv_30m) if conv_30m > 0 else None] *)
Definition window_cpl (spend_30m : Float.float) (conv_30m : Z)
  : result (option Float.float) :=
  if 0 <? conv_30m then
    x <- Float.truediv_int spend_30m conv_30m ;;
    Ok (Some x)
  else Ok None.

(** The body of the loop over [current_items.items()]. *)
Definition intraday_item (previous_items : dict Entry.t)
    (entry : key * Entry.t) : result MetricItem.t :=
  let '(item_id, curr) := entry in
  let prev := previous_of previous_items item_id in
  spend_30m <- float_sub (Entry.spend curr) (fst prev) ;;
  let conv_30m := Entry.conv curr - snd prev in
  cpl_30m <- window_cpl spend_30m conv_30m ;;
  Ok {| MetricItem.id := item_id;
        MetricItem.name := Entry.name curr;
        MetricItem.campaign_id := Entry.campaign_id curr;
        MetricItem.adset_id := Entry.adset_id curr;
        MetricItem.spend_today := Entry.spend curr;
        MetricItem.conv_today := Entry.conv curr;
        MetricItem.cpl_today := Entry.cpl curr;
        MetricItem.spend_30m := spend_30m;
        MetricItem.conv_30m := conv_30m;
        MetricItem.cpl_30m := cpl_30m |}.

(** The [try] block of [get_intraday]. *)
Definition get_intraday_try (level : string) (db : Store)
  : result (list MetricItem.t) :=
  let snapshot_list := stream_recent 2 db in
  match snapshot_list with
  | [] => Ok []
  | current :: rest =>
      let previous := hd_error rest in
      let current_items := index_by_id (level_records current level) in
      let previous_items :=
        match previous with
        | Some p => index_by_id (level_records p level)
        | None => []
        end in
      for_each (intraday_item previous_items) current_items
  end.

Definition get_intraday (API_KEY : string) (level x_api_key : string)
    (db : Store) : result (list MetricItem.t) :=
  _ <- verify_api_key API_KEY x_api_key ;;
  if negb (existsb (String.eqb level) levels) then Raise (HTTPException 400)
  else
    match get_intraday_try level db with
    | Ok result => Ok result
    | Raise _ => Raise (HTTPException 500)
    end.

(** The integers a Firestore document holds are 64-bit. *)
Definition int64 (n : Z) : Prop := - 2 ^ 63 <= n < 2 ^ 63.

Definition firestore_integers (records : list Entry.t) : Prop :=
  Forall (fun e => int64 (Entry.conv e)) records.

(** The sign a float carries; a NaN carries none. *)
Definition sign_is (s : bool) (x : Float.float) : Prop :=
  match x with
  | S754_zero s' | S754_infinity s' | S754_finite s' _ _ => s' = s
  | S754_nan => True
  end.

(** ** Sample data *)

Definition action (t v : string) : Raw.action :=
  {| Raw.action_type := Some t; Raw.value := Some (Str v) |}.

Definition raw_campaign (campaign_id spend : string)
    (actions cost_per_action_type : option (list Raw.action)) : Raw.item :=
  {| Raw.campaign_id := Some campaign_id;
     Raw.campaign_name := Some ("Campaign " ++ campaign_id);
     Raw.adset_id := None;
     Raw.adset_name := None;
     Raw.ad_id := None;
     Raw.ad_name := None;
     Raw.spend := Some (Str spend);
     Raw.actions := actions;
     Raw.cost_per_action_type := cost_per_action_type |}.

(** A source that has the given campaigns and nothing at the other
    levels. *)
Definition campaigns_only (campaigns : list Raw.item) : Source :=
  fun level =>
    if String.eqb level "campaign" then Ok (Some campaigns)
    else Ok (Some []).

(** A source whose ad set request fails. *)
Definition adsets_down (campaigns : list Raw.item) : Source :=
  fun level =>
    if String.eqb level "adset" then Raise RequestException
    else campaigns_only campaigns level.

Definition ten_o_clock : datetime :=
  {| year := 2024; month := 5; day := 1;
     hour := 10; minute := 0; second := 0; microsecond := 0 |}.

Definition half_past_ten : datetime :=
  {| year := 2024; month := 5; day := 1;
     hour := 10; minute := 30; second := 0; microsecond := 250000 |}.

Definition first_fetch : list Raw.item :=
  [ raw_campaign "X" "80" (Some [action ACTION_TYPE "3"]) None;
    raw_campaign "Z" "100" (Some [action ACTION_TYPE "4"]) None;
    raw_campaign "W" "5" None None ].

Definition second_fetch : list Raw.item :=
  [ raw_campaign "X" "100" (Some [action ACTION_TYPE "5"]) None;
    raw_campaign "Y" "50" None None;
    raw_campaign "Z" "90" (Some [action ACTION_TYPE "4"]) None ].

Definition store_after_first : Store :=
  snd (collect "secret" "secret" (campaigns_only first_fetch) ten_o_clock []).

Definition store_after_second : Store :=
  snd (collect "secret" "secret" (campaigns_only second_fetch) half_past_ten
         store_after_first).

(** A campaign whose cost per action the source reports itself. *)
Definition reported_cost_fetch : list Raw.item :=
  [ raw_campaign "R" "100" (Some [action ACTION_TYPE "5"])
      (Some [action ACTION_TYPE "7"]) ].

Definition reported_cost_store : Store :=
  snd (collect "secret" "secret" (campaigns_only reported_cost_fetch)
         ten_o_clock []).

Definition negative_cost_item : Raw.item :=
  raw_campaign "N" "10" (Some [action ACTION_TYPE "2"])
    (Some [action ACTION_TYPE "-1"]).

Definition malformed_spend_item : Raw.item :=
  raw_campaign "M" "abc" None None.

Definition negative_spend_item : Raw.item :=
  raw_campaign "M" "-1.5" None None.

Definition repeated_id_fetch : list Raw.item :=
  [ raw_campaign "X" "10" None None; raw_campaign "X" "20" None None ].

(** Two entries for the target action, the second without a value. *)
Definition two_matches : list Raw.action :=
  [ action ACTION_TYPE "5";
    {| Raw.action_type := Some ACTION_TYPE; Raw.value := None |} ].

Definition no_value_item : Raw.item :=
  raw_campaign "V" "30" None
    (Some [ action "link_click" "0.5";
            {| Raw.action_type := Some ACTION_TYPE; Raw.value := None |} ]).

(** The answer expected for campaign X after the second collection: 20
    more spent, 2 more conversions, 10 per conversion in the window. *)
Definition window_X : MetricItem.t :=
  {| MetricItem.id := Some "X";
     MetricItem.name := "Campaign X";
     MetricItem.campaign_id := None;
     MetricItem.adset_id := None;
     MetricItem.spend_today := Float.round 100 0;
     MetricItem.conv_today := 5;
     MetricItem.cpl_today := Some (Float.round 20 0);
     MetricItem.spend_30m := Float.round 20 0;
     MetricItem.conv_30m := 2;
     MetricItem.cpl_30m := Some (Float.round 10 0) |}.

(** Campaign Y is new: the window is the whole day. *)
Definition window_Y : MetricItem.t :=
  {| MetricItem.id := Some "Y";
     MetricItem.name := "Campaign Y";
     MetricItem.campaign_id := None;
     MetricItem.adset_id := None;
     MetricItem.spend_today := Float.round 50 0;
     MetricItem.conv_today := 0;
     MetricItem.cpl_today := None;
     MetricItem.spend_30m := Float.round 50 0;
     MetricItem.conv_30m := 0;
     MetricItem.cpl_30m := None |}.

(** The source revised the spend of campaign Z from 100 down to 90. *)
Definition window_Z : MetricItem.t :=
  {| MetricItem.id := Some "Z";
     MetricItem.name := "Campaign Z";
     MetricItem.campaign_id := None;
     MetricItem.adset_id := None;
     MetricItem.spend_today := Float.round 90 0;
     MetricItem.conv_today := 4;
     MetricItem.cpl_today := Some (Float.of_decimal false 225 (-1));
     MetricItem.spend_30m := Float.round (-10) 0;
     MetricItem.conv_30m := 0;
     MetricItem.cpl_30m := None |}.

(** The two snapshots the sample collections write. *)
Definition entries (body : Raw.item -> result Entry.t) (items : list Raw.item)
  : list Entry.t :=
  match for_each body items with
  | Ok seq => seq
  | Raise _ => []
  end.

Definition first_snapshot : Snapshot :=
  {| ts := isoformat ten_o_clock;
     date := strftime_date ten_o_clock;
     campaign := entries campaign_entry first_fetch;
     adset := [];
     ad := [] |}.

Definition second_snapshot : Snapshot :=
  {| ts := isoformat half_past_ten;
     date := strftime_date half_past_ten;
     campaign := entries campaign_entry second_fetch;
     adset := [];
     ad := [] |}.

(** The answer for campaign R when its snapshot is the only one: the cost
    of the day is the reported 7, the cost of the window is 100 / 5. *)
Definition window_R : MetricItem.t :=
  {| MetricItem.id := Some "R";
     MetricItem.name := "Campaign R";
     MetricItem.campaign_id := None;
     MetricItem.adset_id := None;
     MetricItem.spend_today := Float.round 100 0;
     MetricItem.conv_today := 5;
     MetricItem.cpl_today := Some (Float.round 7 0);
     MetricItem.spend_30m := Float.round 100 0;
     MetricItem.conv_30m := 5;
     MetricItem.cpl_30m := Some (Float.round 20 0) |}.

(** What the first loop of [collect] makes of [negative_cost_item]: the
    reported cost, -1, is the cost of the record. *)
Definition negative_cost_entry : Entry.t :=
  {| Entry.id := Some "N";
     Entry.name := "Campaign N";
     Entry.campaign_id := None;
     Entry.adset_id := None;
     Entry.spend := Float.round 10 0;
     Entry.conv := 2;
     Entry.cpl := Some (Float.round (-1) 0) |}.

(** What it makes of [negative_spend_item]. *)
Definition negative_spend_entry : Entry.t :=
  {| Entry.id := Some "M";
     Entry.name := "Campaign M";
     Entry.campaign_id := None;
     Entry.adset_id := None;
     Entry.spend := Float.of_decimal true 15 (-1);
     Entry.conv := 0;
     Entry.cpl := None |}.

(** The snapshot [collect] writes for [repeated_id_fetch]. *)
Definition repeated_id_snapshot : Snapshot :=
  {| ts := isoformat ten_o_clock;
     date := strftime_date ten_o_clock;
     campaign := entries campaign_entry repeated_id_fetch;
     adset := [];
     ad := [] |}.

(** A record without a [spend] member. *)
Definition no_spend_item : Raw.item :=
  {| Raw.campaign_id := Some "S";
     Raw.campaign_name := None;
     Raw.adset_id := None;
     Raw.adset_name := None;
     Raw.ad_id := None;
     Raw.ad_name := None;
     Raw.spend := None;
     Raw.actions := None;
     Raw.cost_per_action_type := None |}.

(** The answer of a successful collection at half past ten with three
    campaigns. *)
Definition three_campaigns_collected : CollectResponse :=
  {| status := "success";
     doc_id := "20240501_1030";
     counts := (3%nat, 0%nat, 0%nat) |}.

(** ** Notions the further properties use *)

(** A float that is neither an infinity nor a NaN. *)
Definition is_finite (x : Float.float) : bool :=
  match x with
  | S754_zero _ | S754_finite _ _ _ => true
  | S754_infinity _ | S754_nan => false
  end.

(** The ids of a sequence in the order in which they first occur, those
    in [seen] left out. *)
Fixpoint first_occurrences (seen ids : list key) : list key :=
  match ids with
  | [] => []
  | k :: rest =>
      if existsb (fun k' => key_eqb k' k) seen
      then first_occurrences seen rest
      else k :: first_occurrences (seen ++ [k]) rest
  end.

(** A time of day on a day of the calendar, as [datetime.now] gives
    one. *)
Definition valid_datetime (t : datetime) : Prop :=
  1000 <= year t <= 9999 /\
  1 <= month t <= 12 /\
  1 <= day t <= 31 /\
  0 <= hour t <= 23 /\
  0 <= minute t <= 59 /\
  0 <= second t <= 59 /\
  0 <= microsecond t <= 999999.

(** A number that grows with time: the fields from the year down to the
    microsecond, each in its own decimal places. *)
Definition chronological (t : datetime) : Z :=
  (((((year t * 100 + month t) * 100 + day t) * 100 + hour t) * 100
    + minute t) * 100 + second t) * 1000000 + microsecond t.

(** The minute a time falls in. *)
Definition minute_of (t : datetime) : Z * Z * Z * Z * Z :=
  (year t, month t, day t, hour t, minute t).

(** The record of the current snapshot a record of the answer is made
    from. *)
Definition made_from (curr : Entry.t) (r : MetricItem.t) : Prop :=
  MetricItem.id r = Entry.id curr /\
  MetricItem.name r = Entry.name curr /\
  MetricItem.campaign_id r = Entry.campaign_id curr /\
  MetricItem.adset_id r = Entry.adset_id curr /\
  MetricItem.spend_today r = Entry.spend curr /\
  MetricItem.conv_today r = Entry.conv curr /\
  MetricItem.cpl_today r = Entry.cpl curr.

(** A snapshot that is older than a timestamp. *)
Definition older_than (stamp : string) (doc : string * Snapshot) : Prop :=
  String.compare (ts (snd doc)) stamp = Lt.

(** Forty seconds past ten, in the minute of [ten_o_clock]. *)
Definition shortly_after_ten : datetime :=
  {| year := 2024; month := 5; day := 1;
     hour := 10; minute := 0; second := 40; microsecond := 0 |}.

Definition three_campaigns_at_ten : CollectResponse :=
  {| status := "success";
     doc_id := "20240501_1000";
     counts := (3%nat, 0%nat, 0%nat) |}.

(** The store after a single collection of [second_fetch] in that
    minute. *)
Definition store_of_second_only : Store :=
  snd (collect "secret" "secret" (campaigns_only second_fetch)
         shortly_after_ten []).

Definition eleven_o_clock : datetime :=
  {| year := 2024; month := 5; day := 1;
     hour := 11; minute := 0; second := 0; microsecond := 0 |}.

(** A third collection finds what the second one found. *)
Definition store_after_third : Store :=
  snd (collect "secret" "secret" (campaigns_only second_fetch) eleven_o_clock
         store_after_second).

Definition third_snapshot : Snapshot :=
  {| ts := isoformat eleven_o_clock;
     date := strftime_date eleven_o_clock;
     campaign := entries campaign_entry second_fetch;
     adset := [];
     ad := [] |}.

(** Campaign X as the second and the third snapshot have it. *)
Definition entry_X : Entry.t :=
  {| Entry.id := Some "X";
     Entry.name := "Campaign X";
     Entry.campaign_id := None;
     Entry.adset_id := None;
     Entry.spend := Float.round 100 0;
     Entry.conv := 5;
     Entry.cpl := Some (Float.round 20 0) |}.

(** The answer for campaign X after the third collection. *)
Definition idle_X : MetricItem.t :=
  {| MetricItem.id := Some "X";
     MetricItem.name := "Campaign X";
     MetricItem.campaign_id := None;
     MetricItem.adset_id := None;
     MetricItem.spend_today := Float.round 100 0;
     MetricItem.conv_today := 5;
     MetricItem.cpl_today := Some (Float.round 20 0);
     MetricItem.spend_30m := Float.zero;
     MetricItem.conv_30m := 0;
     MetricItem.cpl_30m := None |}.

Definition idle_Y : MetricItem.t :=
  {| MetricItem.id := Some "Y";
     MetricItem.name := "Campaign Y";
     MetricItem.campaign_id := None;
     MetricItem.adset_id := None;
     MetricItem.spend_today := Float.round 50 0;
     MetricItem.conv_today := 0;
     MetricItem.cpl_today := None;
     MetricItem.spend_30m := Float.zero;
     MetricItem.conv_30m := 0;
     MetricItem.cpl_30m := None |}.

Definition idle_Z : MetricItem.t :=
  {| MetricItem.id := Some "Z";
     MetricItem.name := "Campaign Z";
     MetricItem.campaign_id := None;
     MetricItem.adset_id := None;
     MetricItem.spend_today := Float.round 90 0;
     MetricItem.conv_today := 4;
     MetricItem.cpl_today := Some (Float.of_decimal false 225 (-1));
     MetricItem.spend_30m := Float.zero;
     MetricItem.conv_30m := 0;
     MetricItem.cpl_30m := None |}.

(** One microsecond before eleven. *)
Definition just_before_eleven : datetime :=
  {| year := 2024; month := 5; day := 1;
     hour := 10; minute := 59; second := 59; microsecond := 999999 |}.

(** The fraction of a stamp and what follows it. *)
Definition stamp_tail (t : datetime) : string :=
  (if microsecond t =? 0 then "" else "." ++ zfill 6 (microsecond t) "")
  ++ "+00:00".

(** A source whose answers have no [data] member. *)
Definition no_data : Source := fun _ => Ok None.

(** A campaign whose count of target actions is not a number. *)
Definition nan_count_item : Raw.item :=
  raw_campaign "Q" "12.5" (Some [action ACTION_TYPE "nan"]) None.

(** * Facts about the floats *)
Section FloatFacts.

Lemma digits2_pos_size (p : positive) : digits2_pos p = Pos.size p.
Proof. induction p; simpl; congruence. Qed.

Lemma pow2_digits_le (p : positive) :
  2 ^ (Zpos (digits2_pos p) - 1) <= Zpos p.
Proof.
  rewrite digits2_pos_size.
  pose proof (Pos.size_le p) as H.
  assert (Hp : Zpos (2 ^ Pos.size p) <= Zpos p~0) by exact H.
  rewrite Pos2Z.inj_pow in Hp.
  replace (Zpos (Pos.size p)) with (Z.succ (Zpos (Pos.size p) - 1)) in Hp by lia.
  rewrite Z.pow_succ_r in Hp by lia.
  lia.
Qed.

Lemma shr_1_m (mrs : shr_record) :
  0 <= shr_m mrs -> shr_m (shr_1 mrs) = Z.div2 (shr_m mrs).
Proof.
  destruct mrs as [m r s]; simpl; intros Hm.
  destruct m as [|[p|p|]|p]; simpl; try reflexivity; lia.
Qed.

Lemma iter_shr_1_m (n : positive) : forall mrs,
  0 <= shr_m mrs ->
  shr_m (iter_pos shr_1 n mrs) = Z.shiftr (shr_m mrs) (Zpos n).
Proof.
  assert (Hnn : forall a k, 0 <= a -> 0 <= Z.shiftr a k)
    by (intros; apply Z.shiftr_nonneg; assumption).
  induction n as [n IH|n IH|]; intros mrs Hm; simpl.
  - rewrite IH, IH, shr_1_m; try assumption.
    + rewrite Z.div2_spec, !Z.shiftr_shiftr by lia. f_equal; lia.
    + rewrite shr_1_m, Z.div2_spec by assumption. auto.
    + rewrite IH, shr_1_m, Z.div2_spec; auto.
      rewrite shr_1_m, Z.div2_spec by assumption. auto.
  - rewrite IH, IH; try assumption.
    + rewrite Z.shiftr_shiftr by lia. f_equal; lia.
    + rewrite IH by assumption. auto.
  - rewrite shr_1_m, Z.div2_spec by assumption. reflexivity.
Qed.

Lemma shiftr_pos (m k : Z) : 0 <= k -> 2 ^ k <= m -> 0 < Z.shiftr m k.
Proof.
  intros Hk Hm. rewrite Z.shiftr_div_pow2 by assumption.
  assert (0 < 2 ^ k) by (apply Z.pow_pos_nonneg; lia).
  assert (1 <= m / 2 ^ k); [|lia].
  apply Z.div_le_lower_bound; lia.
Qed.

(** Shifting to the format's exponent keeps a positive mantissa positive
    as long as the exponent is not below the smallest one. *)
Lemma shr_fexp_pos (m : positive) (e : Z) (l : location) :
  emin Float.prec Float.emax <= e ->
  0 < shr_m (fst (shr_fexp Float.prec Float.emax (Zpos m) e l)) /\
  emin Float.prec Float.emax <= snd (shr_fexp Float.prec Float.emax (Zpos m) e l).
Proof.
  intros He. unfold shr_fexp, shr.
  assert (Hrec : shr_m (shr_record_of_loc (Zpos m) l) = Zpos m)
    by (destruct l as [|[]]; reflexivity).
  destruct (fexp Float.prec Float.emax (Zdigits2 (Zpos m) + e) - e) as [|n|n] eqn:Hn;
    simpl; rewrite ?Hrec; try (split; [reflexivity | assumption]).
  split; [|lia].
  rewrite iter_shr_1_m by (rewrite Hrec; lia).
  rewrite Hrec. apply shiftr_pos; [lia|].
  pose proof (pow2_digits_le m) as Hd.
  unfold fexp, Zdigits2 in Hn.
  assert (Hle : Zpos n <= Zpos (digits2_pos m) - 1)
    by (unfold emin, Float.prec, Float.emax in *; lia).
  eapply Z.le_trans; [|exact Hd].
  apply Z.pow_le_mono_r; lia.
Qed.

Lemma round_nearest_even_pos (m : Z) (l : location) :
  0 < m -> 0 < round_nearest_even m l.
Proof.
  intros Hm. destruct l as [|[]]; simpl; try assumption; try lia.
  destruct (Z.even m); lia.
Qed.

Lemma binary_round_aux_nonzero (sx : bool) (m : positive) (e : Z) (l : location) :
  emin Float.prec Float.emax <= e ->
  Float.is_zero (binary_round_aux Float.prec Float.emax sx (Zpos m) e l) = false.
Proof.
  intros He. unfold binary_round_aux.
  destruct (shr_fexp_pos m e l He) as [Hm1 He1].
  destruct (shr_fexp Float.prec Float.emax (Zpos m) e l) as [mrs' e']; simpl in Hm1, He1.
  pose proof (round_nearest_even_pos _ (loc_of_shr_record mrs') Hm1) as Hr.
  destruct (round_nearest_even (shr_m mrs') (loc_of_shr_record mrs')) as [|m2|m2];
    try lia.
  destruct (shr_fexp_pos m2 e' loc_Exact He1) as [Hm2 _].
  destruct (shr_fexp Float.prec Float.emax (Zpos m2) e' loc_Exact) as [mrs'' e'']; simpl in Hm2.
  destruct (shr_m mrs'') as [|m3|m3]; try lia.
  destruct (e'' <=? Float.emax - Float.prec); reflexivity.
Qed.

Lemma binary_round_nonzero (sx : bool) (m : positive) :
  Float.is_zero (binary_round Float.prec Float.emax sx m 0) = false.
Proof.
  unfold binary_round, shl_align.
  destruct (fexp Float.prec Float.emax (Zpos (digits2_pos m) + 0) - 0) eqn:Hn;
    apply binary_round_aux_nonzero; unfold fexp, emin, Float.prec, Float.emax in *; lia.
Qed.

(** Converting a non-zero [int] never gives a zero [float]. *)
Lemma round_nonzero (n : Z) :
  n <> 0 -> Float.is_zero (Float.round n 0) = false.
Proof.
  intros Hn. unfold Float.round, binary_normalize.
  destruct n as [|p|p]; [congruence| |]; apply binary_round_nonzero.
Qed.


Lemma of_int_nonzero (n : Z) (y : Float.float) :
  n <> 0 -> Float.of_int n = Ok y -> Float.is_zero y = false.
Proof.
  unfold Float.of_int. intros Hn H.
  destruct (Z.abs n <? Float.overflow_threshold); [|discriminate].
  injection H as <-. apply round_nonzero; assumption.
Qed.

(** Rounding keeps the sign it is given. *)
Lemma binary_round_aux_sign (sx : bool) (m e : Z) (l : location) :
  sign_is sx (binary_round_aux Float.prec Float.emax sx m e l).
Proof.
  unfold binary_round_aux.
  destruct (shr_fexp Float.prec Float.emax m e l) as [mrs' e'].
  destruct (shr_fexp Float.prec Float.emax _ e' loc_Exact) as [mrs'' e''].
  destruct (shr_m mrs''); [exact eq_refl | | exact I].
  destruct (e'' <=? Float.emax - Float.prec); exact eq_refl.
Qed.

Lemma round_sign (n : Z) : sign_is (n <? 0) (Float.round n 0).
Proof.
  unfold Float.round, binary_normalize, binary_round.
  destruct n as [|p|p]; simpl; trivial;
    destruct (shl_align _ _ _); apply binary_round_aux_sign.
Qed.

(** A positive [int] converts to a positive [float]. *)
Lemma of_int_pos (n : Z) (y : Float.float) :
  0 < n -> Float.of_int n = Ok y -> Float.ltb Float.zero y = true.
Proof.
  intros Hn H.
  assert (Hz : Float.is_zero y = false) by (apply (of_int_nonzero n); [lia | assumption]).
  unfold Float.of_int in H.
  destruct (Z.abs n <? Float.overflow_threshold); [|discriminate].
  injection H as <-.
  pose proof (round_sign n) as Hs.
  replace (n <? 0) with false in Hs by (symmetry; apply Z.ltb_ge; lia).
  assert (Hnan : Float.round n 0 <> S754_nan).
  { unfold Float.round, binary_normalize, binary_round.
    destruct n as [|p|p]; try lia.
    destruct (shl_align _ _ _) as [mz ez].
    unfold binary_round_aux.
    destruct (shr_fexp Float.prec Float.emax (Zpos mz) ez loc_Exact) as [mrs' e'] eqn:H1.
    destruct (shr_fexp Float.prec Float.emax _ e' loc_Exact) as [mrs'' e''] eqn:H2.
    destruct (shr_m mrs'') eqn:Hm; try discriminate.
    - destruct (e'' <=? Float.emax - Float.prec); discriminate.
    - exfalso.
      assert (Hge : forall a k, 0 <= a -> 0 <= Z.shiftr a k)
        by (intros; apply Z.shiftr_nonneg; assumption).
      assert (Hshr : forall (m : Z) e l, 0 <= m ->
                0 <= shr_m (fst (shr_fexp Float.prec Float.emax m e l))).
      { intros m e l Hm0. unfold shr_fexp, shr.
        assert (Hrec : shr_m (shr_record_of_loc m l) = m)
          by (destruct l as [|[]]; reflexivity).
        destruct (fexp Float.prec Float.emax (Zdigits2 m + e) - e); simpl;
          rewrite ?iter_shr_1_m, ?Hrec; auto; rewrite Hrec; assumption. }
      pose proof (Hshr (Zpos mz) ez loc_Exact ltac:(lia)) as Ha.
      rewrite H1 in Ha; simpl in Ha.
      assert (Hr : 0 <= round_nearest_even (shr_m mrs') (loc_of_shr_record mrs')).
      { destruct (loc_of_shr_record mrs') as [|[]]; simpl; try lia.
        destruct (Z.even (shr_m mrs')); lia. }
      pose proof (Hshr _ e' loc_Exact Hr) as Hb.
      rewrite H2 in Hb; simpl in Hb. lia. }
  destruct (Float.round n 0) as [s|s|  |s m e]; simpl in *;
    try discriminate; try congruence; subst; reflexivity.
Qed.

(** [x - 0.0] is [x], whatever [x] is. *)
Lemma sub_zero (x : Float.float) : Float.sub x Float.zero = x.
Proof. destruct x as [[]|[]| |[] m e]; reflexivity. Qed.

Lemma float_sub_int_0 (x : Float.float) : float_sub x (Int 0) = Ok x.
Proof.
  unfold float_sub, to_float.
  replace (Float.of_int 0) with (Ok Float.zero) by (vm_compute; reflexivity).
  simpl. now rewrite sub_zero.
Qed.

(** A quotient of a non-negative float by a positive one is not
    negative. *)
Lemma div_not_negative (x y : Float.float) :
  Float.leb Float.zero x = true ->
  Float.ltb Float.zero y = true ->
  Float.ltb (Float.div x y) Float.zero = false.
Proof.
  destruct x as [sx|sx| |sx mx ex], y as [sy|sy| |sy my ey];
    try discriminate; try reflexivity;
    try (destruct sx, sy; try discriminate; reflexivity).
  destruct sx, sy; try discriminate. intros _ _.
  unfold Float.div, SFdiv.
  destruct (SFdiv_core_binary _ _ _ _ _ _) as [[mz ez] lz].
  pose proof (binary_round_aux_sign (xorb false false) mz ez lz) as Hs.
  destruct (binary_round_aux _ _ _ _ _ _) as [s|s| |s m e];
    simpl in Hs; subst; reflexivity.
Qed.

Lemma int64_no_overflow (n : Z) :
  - 2 ^ 64 < n < 2 ^ 64 -> exists y, Float.of_int n = Ok y.
Proof.
  intros Hn. unfold Float.of_int.
  assert (Hlt : Z.abs n < Float.overflow_threshold).
  { assert (2 ^ 64 <= Float.overflow_threshold) by (vm_compute; discriminate).
    lia. }
  apply Z.ltb_lt in Hlt. rewrite Hlt. eauto.
Qed.

End FloatFacts.

(** The model of [float] on some strings and at the edge of the range. *)
Example of_string_tenth :
  Float.of_string "0.1" = Ok (S754_finite false 7205759403792794 (-56)).
Proof. vm_compute. reflexivity. Qed.

Example of_string_forms :
  Float.of_string " 1_000.5e-3 " = Float.of_string "1.0005" /\
  Float.of_string "+.5" = Float.of_string "0.5" /\
  Float.of_string "-Infinity" = Ok (S754_infinity true) /\
  Float.of_string "NaN" = Ok S754_nan /\
  Float.of_string "1e309" = Ok (S754_infinity false) /\
  Float.of_string "9007199254740993" = Ok (Float.round (2 ^ 53) 0).
Proof. repeat split; vm_compute; reflexivity. Qed.

Example of_string_rejects :
  Float.of_string "" = Raise ValueError /\
  Float.of_string "." = Raise ValueError /\
  Float.of_string "1e" = Raise ValueError /\
  Float.of_string "1_" = Raise ValueError /\
  Float.of_string "1__0" = Raise ValueError /\
  Float.of_string "0x10" = Raise ValueError /\
  Float.of_string "12,5" = Raise ValueError /\
  Float.of_string "infin" = Raise ValueError.
Proof. repeat split; vm_compute; reflexivity. Qed.

Example of_int_range :
  Float.of_int (Float.overflow_threshold - 1)
  = Ok (S754_finite false (2 ^ 53 - 1) 971) /\
  Float.round Float.overflow_threshold 0 = S754_infinity false /\
  Float.of_int Float.overflow_threshold = Raise OverflowError.
Proof. repeat split; vm_compute; reflexivity. Qed.

Example to_int_truncates :
  (x <- Float.of_string "7.9" ;; Float.to_int x) = Ok 7 /\
  (x <- Float.of_string "-7.9" ;; Float.to_int x) = Ok (-7) /\
  (x <- Float.of_string "inf" ;; Float.to_int x) = Raise OverflowError /\
  (x <- Float.of_string "nan" ;; Float.to_int x) = Raise ValueError.
Proof. repeat split; vm_compute; reflexivity. Qed.

(** * Facts about loops and dictionaries *)

Section Loops.

Context {A B : Type} (body : A -> result B).

Lemma for_each_ok (xs : list A) : forall ys,
  for_each body xs = Ok ys -> Forall2 (fun x y => body x = Ok y) xs ys.
Proof.
  induction xs as [|x xs IH]; simpl; intros ys H.
  - injection H as <-. constructor.
  - destruct (body x) as [y|e] eqn:Hx; simpl in H; [|discriminate].
    destruct (for_each body xs) as [ys'|e]; simpl in H; [|discriminate].
    injection H as <-. constructor; auto.
Qed.

Lemma for_each_total (xs : list A) :
  Forall (fun x => exists y, body x = Ok y) xs ->
  exists ys, for_each body xs = Ok ys.
Proof.
  induction 1 as [|x xs [y Hy] _ [ys Hys]]; simpl.
  - eauto.
  - rewrite Hy, Hys. simpl. eauto.
Qed.

Lemma for_each_raise (xs : list A) (x : A) (e : exn) :
  In x xs -> body x = Raise e -> exists e', for_each body xs = Raise e'.
Proof.
  intros Hin Hx. induction xs as [|a xs IH]; simpl in *; [contradiction|].
  destruct Hin as [->|Hin].
  - rewrite Hx. simpl. eauto.
  - destruct (body a); simpl; eauto.
    destruct (IH Hin) as [e' ->]. simpl. eauto.
Qed.

End Loops.

Lemma Forall2_map {A B C : Type} (R : A -> B -> Prop) (f : A -> C)
    (g : B -> C) (xs : list A) (ys : list B) :
  (forall x y, R x y -> f x = g y) -> Forall2 R xs ys -> map f xs = map g ys.
Proof.
  intros Hfg. induction 1; simpl; [reflexivity|]. f_equal; auto.
Qed.

Lemma Forall2_in_r {A B : Type} (R : A -> B -> Prop) (xs : list A)
    (ys : list B) (y : B) :
  Forall2 R xs ys -> In y ys -> exists x, In x xs /\ R x y.
Proof.
  induction 1 as [|a b xs ys Hab _ IH]; simpl; [contradiction|].
  intros [<-|Hin]; [eauto|].
  destruct (IH Hin) as (x & Hx & Hr). eauto.
Qed.

Lemma key_eqb_eq (a b : key) : key_eqb a b = true <-> a = b.
Proof.
  destruct a as [x|], b as [y|]; simpl; split; intros H;
    try discriminate; try reflexivity.
  - apply String.eqb_eq in H. now subst.
  - injection H as ->. apply String.eqb_refl.
Qed.

Lemma key_eqb_neq (a b : key) : key_eqb a b = false <-> a <> b.
Proof.
  rewrite <- key_eqb_eq. destruct (key_eqb a b); split; congruence.
Qed.

Section Dict.

Context {V : Type}.
Implicit Types (d : dict V) (k : key) (v : V).

Lemma dict_set_in k v d k' :
  In k' (map fst (dict_set k v d)) <-> k' = k \/ In k' (map fst d).
Proof.
  induction d as [|[k0 v0] d IH]; simpl.
  - intuition.
  - destruct (key_eqb k0 k) eqn:Hk; simpl.
    + apply key_eqb_eq in Hk. subst. intuition.
    + rewrite IH. intuition.
Qed.

Lemma dict_set_nodup k v d :
  NoDup (map fst d) -> NoDup (map fst (dict_set k v d)).
Proof.
  induction d as [|[k0 v0] d IH]; simpl; intros Hnd.
  - constructor; [intros [] | constructor].
  - inversion Hnd as [|? ? Hnotin Hnd']; subst.
    destruct (key_eqb k0 k) eqn:Hk; simpl.
    + constructor; assumption.
    + constructor; [|auto].
      rewrite dict_set_in. apply key_eqb_neq in Hk. intuition.
Qed.

Lemma dict_set_elements k v d k' v' :
  In (k', v') (dict_set k v d) -> (k', v') = (k, v) \/ In (k', v') d.
Proof.
  induction d as [|[k0 v0] d IH]; simpl.
  - intuition.
  - destruct (key_eqb k0 k) eqn:Hk; simpl.
    + apply key_eqb_eq in Hk. subst. intuition.
    + intuition.
Qed.

Lemma dict_get_set_same k v d : dict_get k (dict_set k v d) = Some v.
Proof.
  induction d as [|[k0 v0] d IH]; simpl.
  - now rewrite (proj2 (key_eqb_eq k k) eq_refl).
  - destruct (key_eqb k0 k) eqn:Hk; simpl; now rewrite Hk.
Qed.

Lemma dict_get_set_other k v d k' :
  k' <> k -> dict_get k' (dict_set k v d) = dict_get k' d.
Proof.
  intros Hne. induction d as [|[k0 v0] d IH]; simpl.
  - apply not_eq_sym in Hne. apply key_eqb_neq in Hne. now rewrite Hne.
  - destruct (key_eqb k0 k) eqn:Hk; simpl.
    + apply key_eqb_eq in Hk. subst k0.
      apply not_eq_sym in Hne. apply key_eqb_neq in Hne. now rewrite Hne.
    + now rewrite IH.
Qed.

Lemma dict_get_in k v d :
  NoDup (map fst d) -> In (k, v) d -> dict_get k d = Some v.
Proof.
  induction d as [|[k0 v0] d IH]; simpl; intros Hnd Hin; [contradiction|].
  inversion Hnd as [|? ? Hnotin Hnd']; subst.
  destruct Hin as [Heq|Hin].
  - injection Heq as -> ->. now rewrite (proj2 (key_eqb_eq k k) eq_refl).
  - destruct (key_eqb k0 k) eqn:Hk; [|auto].
    apply key_eqb_eq in Hk. subst k0. exfalso. apply Hnotin.
    change k with (fst (k, v)). now apply in_map.
Qed.

Lemma dict_get_some_in k v d : dict_get k d = Some v -> In (k, v) d.
Proof.
  induction d as [|[k0 v0] d IH]; simpl; [discriminate|].
  destruct (key_eqb k0 k) eqn:Hk; [|auto].
  apply key_eqb_eq in Hk. intros H. injection H as ->. subst. auto.
Qed.

Lemma dict_get_none k d : ~ In k (map fst d) -> dict_get k d = None.
Proof.
  induction d as [|[k0 v0] d IH]; simpl; intros Hnotin; [reflexivity|].
  destruct (key_eqb k0 k) eqn:Hk.
  - apply key_eqb_eq in Hk. intuition.
  - intuition.
Qed.

End Dict.

Section Index.

Implicit Types (d : dict Entry.t) (records : list Entry.t).

Lemma index_from_nodup records : forall d,
  NoDup (map fst d) -> NoDup (map fst (fold_left index_add records d)).
Proof.
  induction records as [|e records IH]; simpl; intros d Hd; [assumption|].
  apply IH. now apply dict_set_nodup.
Qed.

Lemma index_from_keys records : forall d k,
  In k (map fst (fold_left index_add records d)) <->
  In k (map fst d) \/ In k (map Entry.id records).
Proof.
  induction records as [|e records IH]; simpl; intros d k; [intuition|].
  rewrite IH. unfold index_add. rewrite dict_set_in. intuition.
Qed.

Lemma index_from_elements records : forall d k e,
  In (k, e) (fold_left index_add records d) ->
  In (k, e) d \/ (In e records /\ Entry.id e = k).
Proof.
  induction records as [|e0 records IH]; simpl; intros d k e Hin; [auto|].
  apply IH in Hin. destruct Hin as [Hin|[Hin Hk]]; [|auto].
  apply dict_set_elements in Hin. destruct Hin as [Heq|Hin]; [|auto].
  injection Heq as -> ->. auto.
Qed.

Lemma index_from_get_later records : forall d k,
  ~ In k (map Entry.id records) ->
  dict_get k (fold_left index_add records d) = dict_get k d.
Proof.
  induction records as [|e records IH]; simpl; intros d k Hk; [reflexivity|].
  rewrite IH by intuition. apply dict_get_set_other. intuition.
Qed.

(** The keys of an index are pairwise different. *)
Lemma index_by_id_nodup records : NoDup (map fst (index_by_id records)).
Proof. apply index_from_nodup. constructor. Qed.

(** They are the ids of the records. *)
Lemma index_by_id_keys records k :
  In k (map fst (index_by_id records)) <-> In k (map Entry.id records).
Proof. unfold index_by_id. rewrite index_from_keys. simpl. intuition. Qed.

Lemma index_by_id_elements records k e :
  In (k, e) (index_by_id records) -> In e records /\ Entry.id e = k.
Proof.
  intros Hin. apply index_from_elements in Hin.
  destruct Hin as [[]|H]. exact H.
Qed.

(** The last record with an id is the one the index holds. *)
Lemma index_by_id_last_wins (l1 l2 : list Entry.t) (e : Entry.t) :
  ~ In (Entry.id e) (map Entry.id l2) ->
  dict_get (Entry.id e) (index_by_id (l1 ++ e :: l2)) = Some e.
Proof.
  intros Hlast. unfold index_by_id.
  rewrite fold_left_app. simpl.
  rewrite index_from_get_later by assumption.
  apply dict_get_set_same.
Qed.

End Index.

(** * The handlers *)

Lemma verify_api_key_same (API_KEY : string) :
  verify_api_key API_KEY API_KEY = Ok tt.
Proof. unfold verify_api_key. now rewrite String.eqb_refl. Qed.

Lemma level_is_valid (level : string) :
  In level levels -> existsb (String.eqb level) levels = true.
Proof.
  intros H. apply existsb_exists. exists level. split; [assumption|].
  apply String.eqb_refl.
Qed.

Lemma get_intraday_authorised (API_KEY level : string) (db : Store) :
  In level levels ->
  get_intraday API_KEY level API_KEY db =
  match get_intraday_try level db with
  | Ok result => Ok result
  | Raise _ => Raise (HTTPException 500)
  end.
Proof.
  intros Hl. unfold get_intraday.
  rewrite verify_api_key_same. unfold bind.
  now rewrite level_is_valid.
Qed.

Lemma get_intraday_ok (API_KEY level x_api_key : string) (db : Store)
    (result : list MetricItem.t) :
  get_intraday API_KEY level x_api_key db = Ok result ->
  get_intraday_try level db = Ok result.
Proof.
  unfold get_intraday. destruct (verify_api_key _ _); simpl; [|discriminate].
  destruct (negb _); [discriminate|].
  destruct (get_intraday_try level db); congruence.
Qed.

(** The division of a float by a positive [int] never meets a zero
    divisor: only the conversion of the [int] can fail. *)
Lemma truediv_int_pos (x : Float.float) (n : Z) :
  0 < n ->
  Float.truediv_int x n = (y <- Float.of_int n ;; Ok (Float.div x y)).
Proof.
  intros Hn. unfold Float.truediv_int, Float.truediv.
  destruct (Float.of_int n) as [y|e] eqn:Hy; simpl; [|reflexivity].
  rewrite (of_int_nonzero n y); [reflexivity | lia | assumption].
Qed.

Lemma window_cpl_spec (spend_30m : Float.float) (conv_30m : Z)
    (cpl_30m : option Float.float) :
  window_cpl spend_30m conv_30m = Ok cpl_30m ->
  if 0 <? conv_30m
  then exists y, Float.of_int conv_30m = Ok y /\
                 Float.ltb Float.zero y = true /\
                 cpl_30m = Some (Float.div spend_30m y)
  else cpl_30m = None.
Proof.
  unfold window_cpl. destruct (0 <? conv_30m) eqn:Hc.
  - apply Z.ltb_lt in Hc. rewrite truediv_int_pos by assumption.
    destruct (Float.of_int conv_30m) as [y|e] eqn:Hy; simpl; [|discriminate].
    intros H. injection H as <-. exists y.
    split; [reflexivity|]. split; [|reflexivity].
    now apply (of_int_pos conv_30m).
  - congruence.
Qed.

Lemma window_cpl_total (spend_30m : Float.float) (conv_30m : Z) :
  - 2 ^ 64 < conv_30m < 2 ^ 64 ->
  exists cpl_30m, window_cpl spend_30m conv_30m = Ok cpl_30m.
Proof.
  intros Hb. unfold window_cpl. destruct (0 <? conv_30m) eqn:Hc; [|eauto].
  apply Z.ltb_lt in Hc. rewrite truediv_int_pos by assumption.
  destruct (int64_no_overflow conv_30m Hb) as [y ->]. simpl. eauto.
Qed.

(** What one record of the answer holds. *)
Lemma intraday_item_ok (previous_items : dict Entry.t) (k : key)
    (curr : Entry.t) (r : MetricItem.t) :
  intraday_item previous_items (k, curr) = Ok r ->
  MetricItem.id r = k /\
  MetricItem.spend_today r = Entry.spend curr /\
  MetricItem.conv_today r = Entry.conv curr /\
  MetricItem.cpl_today r = Entry.cpl curr /\
  float_sub (Entry.spend curr) (fst (previous_of previous_items k))
    = Ok (MetricItem.spend_30m r) /\
  MetricItem.conv_30m r = Entry.conv curr - snd (previous_of previous_items k) /\
  window_cpl (MetricItem.spend_30m r) (MetricItem.conv_30m r)
    = Ok (MetricItem.cpl_30m r).
Proof.
  unfold intraday_item.
  destruct (float_sub _ _) as [s|e]; simpl; [|discriminate].
  destruct (window_cpl _ _) as [c|e] eqn:Hw; simpl; [|discriminate].
  intros H. injection H as <-. simpl. repeat split; assumption.
Qed.

Lemma intraday_item_total (previous_items : dict Entry.t) (k : key)
    (curr : Entry.t) :
  int64 (Entry.conv curr) ->
  (forall prev, dict_get k previous_items = Some prev -> int64 (Entry.conv prev)) ->
  exists r, intraday_item previous_items (k, curr) = Ok r.
Proof.
  intros Hc Hp. unfold intraday_item, previous_of.
  destruct (dict_get k previous_items) as [prev|] eqn:Hget; cbn [fst snd].
  - specialize (Hp prev eq_refl). unfold float_sub, to_float. cbn [bind].
    destruct (window_cpl_total (Float.sub (Entry.spend curr) (Entry.spend prev))
                (Entry.conv curr - Entry.conv prev)) as [c ->];
      [unfold int64 in *; lia|]. simpl. eauto.
  - rewrite float_sub_int_0. simpl.
    destruct (window_cpl_total (Entry.spend curr) (Entry.conv curr - 0)) as [c ->];
      [unfold int64 in *; lia|]. simpl. eauto.
Qed.

(** * The delta engine *)

(** C9. When the store holds no snapshot, the delta engine answers with an
    empty sequence for each of the three levels, not with an error. *)
Theorem get_intraday_empty_store (API_KEY level : string) :
  In level levels ->
  get_intraday API_KEY level API_KEY [] = Ok [].
Proof.
  intros Hl. rewrite get_intraday_authorised by assumption. reflexivity.
Qed.

Lemma get_intraday_empty_store_witness :
  In "adset" levels /\ get_intraday "secret" "adset" "secret" [] = Ok [].
Proof.
  split.
  - simpl. auto.
  - apply (get_intraday_empty_store "secret" "adset"). simpl. auto.
Defined.

(** C3. In every record the delta engine produces, the window cost is the
    window spend divided by the window conversions when these are
    positive, the divisor then being a positive float, and it is null when
    the window conversions are zero or negative. *)
Theorem window_cost_is_guarded (API_KEY level x_api_key : string)
    (db : Store) (result : list MetricItem.t) (r : MetricItem.t) :
  get_intraday API_KEY level x_api_key db = Ok result ->
  In r result ->
  if 0 <? MetricItem.conv_30m r
  then exists y, Float.of_int (MetricItem.conv_30m r) = Ok y /\
                 Float.ltb Float.zero y = true /\
                 MetricItem.cpl_30m r
                 = Some (Float.div (MetricItem.spend_30m r) y)
  else MetricItem.cpl_30m r = None.
Proof.
  intros Hok Hin. apply get_intraday_ok in Hok.
  unfold get_intraday_try in Hok.
  destruct (stream_recent 2 db) as [|current rest].
  - injection Hok as <-. contradiction.
  - apply for_each_ok in Hok.
    destruct (Forall2_in_r _ _ _ _ Hok Hin) as ([k curr] & _ & Hr).
    apply intraday_item_ok in Hr.
    apply window_cpl_spec. apply Hr.
Qed.

Lemma window_cost_is_guarded_witness :
  (get_intraday "secret" "campaign" "secret" store_after_second
   = Ok [window_X; window_Y; window_Z] /\
   In window_X [window_X; window_Y; window_Z]) /\
  if 0 <? MetricItem.conv_30m window_X
  then exists y, Float.of_int (MetricItem.conv_30m window_X) = Ok y /\
                 Float.ltb Float.zero y = true /\
                 MetricItem.cpl_30m window_X
                 = Some (Float.div (MetricItem.spend_30m window_X) y)
  else MetricItem.cpl_30m window_X = None.
Proof.
  assert (H1 : get_intraday "secret" "campaign" "secret" store_after_second
               = Ok [window_X; window_Y; window_Z])
    by (vm_compute; reflexivity).
  assert (H2 : In window_X [window_X; window_Y; window_Z])
    by (left; reflexivity).
  split; [split; assumption|].
  exact (window_cost_is_guarded "secret" "campaign" "secret"
           store_after_second _ window_X H1 H2).
Defined.

Lemma previous_of_spec (previous_items : dict Entry.t) (k : key)
    (x : Float.float) :
  float_sub x (fst (previous_of previous_items k))
    = Ok (Float.sub x (previous_spend previous_items k)) /\
  snd (previous_of previous_items k) = previous_conv previous_items k.
Proof.
  unfold previous_of, previous_spend, previous_conv.
  destruct (dict_get k previous_items); cbn [fst snd].
  - split; reflexivity.
  - rewrite float_sub_int_0, sub_zero. split; reflexivity.
Qed.

(** The loop of the delta engine over the index of the current records. *)
Lemma intraday_loop (records : list Entry.t) (previous_items : dict Entry.t) :
  firestore_integers records ->
  (forall k prev, dict_get k previous_items = Some prev ->
                  int64 (Entry.conv prev)) ->
  exists result,
    for_each (intraday_item previous_items) (index_by_id records) = Ok result /\
    map MetricItem.id result = map fst (index_by_id records) /\
    forall r, In r result ->
      exists curr,
        dict_get (MetricItem.id r) (index_by_id records) = Some curr /\
        MetricItem.spend_today r = Entry.spend curr /\
        MetricItem.conv_today r = Entry.conv curr /\
        MetricItem.cpl_today r = Entry.cpl curr /\
        MetricItem.spend_30m r
        = Float.sub (Entry.spend curr)
            (previous_spend previous_items (MetricItem.id r)) /\
        MetricItem.conv_30m r
        = Entry.conv curr - previous_conv previous_items (MetricItem.id r) /\
        window_cpl (MetricItem.spend_30m r) (MetricItem.conv_30m r)
        = Ok (MetricItem.cpl_30m r).
Proof.
  intros Hcur Hprev.
  destruct (for_each_total (intraday_item previous_items) (index_by_id records))
    as [result Hres].
  { apply Forall_forall. intros [k curr] Hin.
    apply index_by_id_elements in Hin. destruct Hin as [Hin _].
    apply intraday_item_total.
    - unfold firestore_integers in Hcur. rewrite Forall_forall in Hcur. auto.
    - apply Hprev. }
  exists result. split; [assumption|].
  apply for_each_ok in Hres. split.
  - symmetry. eapply Forall2_map; [|exact Hres].
    intros [k curr] r Hr. apply intraday_item_ok in Hr. symmetry. apply Hr.
  - intros r Hin.
    destruct (Forall2_in_r _ _ _ _ Hres Hin) as ([k curr] & Hk & Hr).
    apply intraday_item_ok in Hr.
    destruct Hr as (Hid & Hs & Hc & Hl & Hsub & Hconv & Hw).
    destruct (previous_of_spec previous_items k (Entry.spend curr)) as [Hps Hpc].
    exists curr. subst k. repeat split; try assumption.
    + apply dict_get_in; [apply index_by_id_nodup | assumption].
    + congruence.
    + congruence.
Qed.

Lemma firestore_integers_convs (records : list Entry.t) :
  Forall int64 (map Entry.conv records) -> firestore_integers records.
Proof. unfold firestore_integers. now rewrite Forall_map. Qed.

Lemma index_by_id_int64 (records : list Entry.t) (k : key) (prev : Entry.t) :
  firestore_integers records ->
  dict_get k (index_by_id records) = Some prev -> int64 (Entry.conv prev).
Proof.
  intros Hf Hget. apply dict_get_some_in, index_by_id_elements in Hget.
  unfold firestore_integers in Hf. rewrite Forall_forall in Hf.
  apply Hf, Hget.
Qed.

(** C1. For two snapshots, the newest and the one before it, and a level,
    the delta engine answers with exactly one record per id of the current
    snapshot's index, in the order of the index; ids that only the
    previous snapshot has are absent.  The window spend of a record is the
    current spend minus the previous one, the window conversions likewise,
    the previous value being 0 for an id the previous snapshot does not
    have.  The difference is kept as it is, negative or not.  The
    sequences that are indexed are the snapshots' own: [campaign], [adset]
    or [ad], as the level says. *)
Theorem delta_of_two_snapshots (API_KEY level : string) (db : Store)
    (current previous : Snapshot) :
  In level levels ->
  stream_recent 2 db = [current; previous] ->
  firestore_integers (level_records current level) ->
  firestore_integers (level_records previous level) ->
  exists result,
    get_intraday API_KEY level API_KEY db = Ok result /\
    map MetricItem.id result
    = map fst (index_by_id (level_records current level)) /\
    NoDup (map MetricItem.id result) /\
    (forall k, In k (map MetricItem.id result) <->
               In k (map Entry.id (level_records current level))) /\
    (forall r, In r result ->
       exists curr,
         dict_get (MetricItem.id r) (index_by_id (level_records current level))
         = Some curr /\
         MetricItem.spend_30m r
         = Float.sub (Entry.spend curr)
             (previous_spend (index_by_id (level_records previous level))
                (MetricItem.id r)) /\
         MetricItem.conv_30m r
         = Entry.conv curr
           - previous_conv (index_by_id (level_records previous level))
               (MetricItem.id r)) /\
    ((level = "campaign" /\
      level_records current level = campaign current /\
      level_records previous level = campaign previous) \/
     (level = "adset" /\
      level_records current level = adset current /\
      level_records previous level = adset previous) \/
     (level = "ad" /\
      level_records current level = ad current /\
      level_records previous level = ad previous)).
Proof.
  intros Hl Hrecent Hcur Hprev.
  assert (Hfields :
    (level = "campaign" /\
     level_records current level = campaign current /\
     level_records previous level = campaign previous) \/
    (level = "adset" /\
     level_records current level = adset current /\
     level_records previous level = adset previous) \/
    (level = "ad" /\
     level_records current level = ad current /\
     level_records previous level = ad previous)).
  { destruct Hl as [<-|[<-|[<-|[]]]];
      [left | right; left | right; right]; repeat split. }
  rewrite get_intraday_authorised by assumption.
  unfold get_intraday_try. rewrite Hrecent. cbn [hd_error].
  destruct (intraday_loop (level_records current level)
              (index_by_id (level_records previous level)) Hcur)
    as (result & Hres & Hids & Hrec).
  { intros k prev. now apply index_by_id_int64. }
  exists result. rewrite Hres. split; [reflexivity|].
  split; [assumption|]. rewrite Hids.
  split; [apply index_by_id_nodup|].
  split; [intros k; apply index_by_id_keys|].
  split; [|exact Hfields].
  intros r Hin. destruct (Hrec r Hin) as (curr & Hget & _ & _ & _ & Hs & Hc & _).
  exists curr. auto.
Qed.

(** On the sample store the answer is the three windows: campaign X with
    20 more spent and 2 more conversions, campaign Y new, campaign Z with
    a spend revised downwards, whose negative window is kept; campaign W,
    which only the previous snapshot has, is absent. *)
Lemma delta_of_two_snapshots_witness :
  (In "campaign" levels /\
   stream_recent 2 store_after_second = [second_snapshot; first_snapshot] /\
   firestore_integers (level_records second_snapshot "campaign") /\
   firestore_integers (level_records first_snapshot "campaign")) /\
  (get_intraday "secret" "campaign" "secret" store_after_second
   = Ok [window_X; window_Y; window_Z] /\
   map Entry.id (campaign second_snapshot) = [Some "X"; Some "Y"; Some "Z"] /\
   map Entry.id (campaign first_snapshot) = [Some "X"; Some "Z"; Some "W"] /\
   Float.ltb (MetricItem.spend_30m window_Z) Float.zero = true) /\
  exists result,
    get_intraday "secret" "campaign" "secret" store_after_second = Ok result /\
    map MetricItem.id result
    = map fst (index_by_id (level_records second_snapshot "campaign")) /\
    NoDup (map MetricItem.id result) /\
    (forall k, In k (map MetricItem.id result) <->
               In k (map Entry.id (level_records second_snapshot "campaign"))) /\
    (forall r, In r result ->
       exists curr,
         dict_get (MetricItem.id r)
           (index_by_id (level_records second_snapshot "campaign"))
         = Some curr /\
         MetricItem.spend_30m r
         = Float.sub (Entry.spend curr)
             (previous_spend
                (index_by_id (level_records first_snapshot "campaign"))
                (MetricItem.id r)) /\
         MetricItem.conv_30m r
         = Entry.conv curr
           - previous_conv
               (index_by_id (level_records first_snapshot "campaign"))
               (MetricItem.id r)) /\
    (("campaign" = "campaign" /\
      level_records second_snapshot "campaign" = campaign second_snapshot /\
      level_records first_snapshot "campaign" = campaign first_snapshot) \/
     ("campaign" = "adset" /\
      level_records second_snapshot "campaign" = adset second_snapshot /\
      level_records first_snapshot "campaign" = adset first_snapshot) \/
     ("campaign" = "ad" /\
      level_records second_snapshot "campaign" = ad second_snapshot /\
      level_records first_snapshot "campaign" = ad first_snapshot)).
Proof.
  assert (H1 : In "campaign" levels) by (simpl; auto).
  assert (H2 : stream_recent 2 store_after_second
               = [second_snapshot; first_snapshot])
    by (vm_compute; reflexivity).
  assert (H3 : firestore_integers (level_records second_snapshot "campaign")).
  { apply firestore_integers_convs.
    replace (map Entry.conv (level_records second_snapshot "campaign"))
      with [5; 0; 4] by (vm_compute; reflexivity).
    repeat constructor; unfold int64; lia. }
  assert (H4 : firestore_integers (level_records first_snapshot "campaign")).
  { apply firestore_integers_convs.
    replace (map Entry.conv (level_records first_snapshot "campaign"))
      with [3; 4; 0] by (vm_compute; reflexivity).
    repeat constructor; unfold int64; lia. }
  assert (H5 : get_intraday "secret" "campaign" "secret" store_after_second
               = Ok [window_X; window_Y; window_Z])
    by (vm_compute; reflexivity).
  assert (H6 : map Entry.id (campaign second_snapshot)
               = [Some "X"; Some "Y"; Some "Z"]) by (vm_compute; reflexivity).
  assert (H7 : map Entry.id (campaign first_snapshot)
               = [Some "X"; Some "Z"; Some "W"]) by (vm_compute; reflexivity).
  assert (H8 : Float.ltb (MetricItem.spend_30m window_Z) Float.zero = true)
    by (vm_compute; reflexivity).
  split; [exact (conj H1 (conj H2 (conj H3 H4)))|].
  split; [exact (conj H5 (conj H6 (conj H7 H8)))|].
  exact (delta_of_two_snapshots "secret" "campaign" store_after_second
           second_snapshot first_snapshot H1 H2 H3 H4).
Defined.

(** The three scenarios of the sample store: an entity in both snapshots,
    an entity new in the current one, and a spend revised downwards, whose
    negative window is kept.  Campaign W, which only the previous snapshot
    has, is not in the answer. *)
Example sample_windows :
  get_intraday "secret" "campaign" "secret" store_after_second
  = Ok [window_X; window_Y; window_Z] /\
  Float.ltb (MetricItem.spend_30m window_Z) Float.zero = true.
Proof. split; vm_compute; reflexivity. Qed.

(** C2, as the code has it.  When the store holds exactly one snapshot, the
    delta engine answers with one record per id of that snapshot's index
    at the level; in each record the window spend equals the spend of the
    day and the window conversions equal the conversions of the day.  The
    window cost is the spend of the day divided by the conversions of the
    day when these are positive and null otherwise: it equals the cost of
    the day whenever that one was computed from spend and conversions. *)
Theorem single_snapshot_window (API_KEY level : string) (db : Store) :
  In level levels ->
  List.length db = 1%nat ->
  (forall doc, In doc db -> firestore_integers (level_records (snd doc) level)) ->
  exists doc_id snapshot result,
    db = [(doc_id, snapshot)] /\
    get_intraday API_KEY level API_KEY db = Ok result /\
    map MetricItem.id result
    = map fst (index_by_id (level_records snapshot level)) /\
    forall r, In r result ->
      MetricItem.spend_30m r = MetricItem.spend_today r /\
      MetricItem.conv_30m r = MetricItem.conv_today r /\
      window_cpl (MetricItem.spend_today r) (MetricItem.conv_today r)
      = Ok (MetricItem.cpl_30m r) /\
      (calculate_cpl (MetricItem.spend_today r) (MetricItem.conv_today r) None
       = Ok (MetricItem.cpl_today r) ->
       MetricItem.cpl_30m r = MetricItem.cpl_today r).
Proof.
  intros Hl Hlen Hint.
  destruct db as [|[doc_id snapshot] [|? ?]]; try discriminate.
  exists doc_id, snapshot.
  rewrite get_intraday_authorised by assumption.
  unfold get_intraday_try.
  change (stream_recent 2 [(doc_id, snapshot)]) with [snapshot].
  cbn [hd_error].
  destruct (intraday_loop (level_records snapshot level) [])
    as (result & Hres & Hids & Hrec).
  { apply (Hint (doc_id, snapshot)). left. reflexivity. }
  { intros k prev H. discriminate H. }
  exists result. rewrite Hres.
  split; [reflexivity|]. split; [reflexivity|]. split; [assumption|].
  intros r Hin.
  destruct (Hrec r Hin) as (curr & _ & Hs & Hc & _ & Hs30 & Hc30 & Hw).
  unfold previous_spend, previous_conv in Hs30, Hc30.
  cbn [dict_get] in Hs30, Hc30.
  rewrite sub_zero in Hs30. rewrite Z.sub_0_r in Hc30.
  rewrite Hs30, Hc30, <- Hs, <- Hc in Hw.
  split; [congruence|]. split; [congruence|]. split; [exact Hw|].
  intros Hday. unfold calculate_cpl in Hday. unfold window_cpl in Hw.
  congruence.
Qed.

Lemma single_snapshot_window_witness :
  (In "campaign" levels /\
   List.length store_after_first = 1%nat /\
   (forall doc, In doc store_after_first ->
                firestore_integers (level_records (snd doc) "campaign"))) /\
  exists doc_id snapshot result,
    store_after_first = [(doc_id, snapshot)] /\
    get_intraday "secret" "campaign" "secret" store_after_first = Ok result /\
    map MetricItem.id result
    = map fst (index_by_id (level_records snapshot "campaign")) /\
    forall r, In r result ->
      MetricItem.spend_30m r = MetricItem.spend_today r /\
      MetricItem.conv_30m r = MetricItem.conv_today r /\
      window_cpl (MetricItem.spend_today r) (MetricItem.conv_today r)
      = Ok (MetricItem.cpl_30m r) /\
      (calculate_cpl (MetricItem.spend_today r) (MetricItem.conv_today r) None
       = Ok (MetricItem.cpl_today r) ->
       MetricItem.cpl_30m r = MetricItem.cpl_today r).
Proof.
  assert (H1 : In "campaign" levels) by (simpl; auto).
  assert (H2 : List.length store_after_first = 1%nat)
    by (vm_compute; reflexivity).
  assert (H3 : forall doc, In doc store_after_first ->
               firestore_integers (level_records (snd doc) "campaign")).
  { assert (Hs : store_after_first = [("20240501_1000", first_snapshot)])
      by (vm_compute; reflexivity).
    rewrite Hs. intros doc [<-|[]].
    apply firestore_integers_convs.
    replace (map Entry.conv (level_records (snd ("20240501_1000", first_snapshot))
                               "campaign"))
      with [3; 4; 0] by (vm_compute; reflexivity).
    repeat constructor; unfold int64; lia. }
  split; [exact (conj H1 (conj H2 H3))|].
  exact (single_snapshot_window "secret" "campaign" store_after_first H1 H2 H3).
Defined.

(** C2 fails as stated: the store holds one snapshot, and the window cost
    of campaign R, 100 / 5, is not the cost of the day, the 7 the source
    reported. *)
Lemma reported_cost_is_not_window_cost :
  List.length reported_cost_store = 1%nat /\
  get_intraday "secret" "campaign" "secret" reported_cost_store
  = Ok [window_R] /\
  MetricItem.cpl_30m window_R <> MetricItem.cpl_today window_R.
Proof.
  split; [vm_compute; reflexivity|]. split; [vm_compute; reflexivity|].
  vm_compute. discriminate.
Qed.

(** * The normaliser *)

(** The three cases of [calculate_cpl], the division written without its
    test for a zero divisor. *)
Lemma calculate_cpl_cases (spend : Float.float) (conv : Z)
    (cpa : option Float.float) :
  calculate_cpl spend conv cpa
  = match cpa with
    | Some c => Ok (Some c)
    | None =>
        if 0 <? conv
        then y <- Float.of_int conv ;; Ok (Some (Float.div spend y))
        else Ok None
    end.
Proof.
  unfold calculate_cpl. destruct cpa as [c|]; [reflexivity|].
  destruct (0 <? conv) eqn:Hc; [|reflexivity].
  apply Z.ltb_lt in Hc. rewrite truediv_int_pos by assumption.
  destruct (Float.of_int conv); reflexivity.
Qed.

(** C4. The derived cost is the reported cost per action when there is
    one; otherwise the spend divided by the conversions when these are
    positive; otherwise null.  The division never meets a zero divisor:
    [calculate_cpl] does not raise [ZeroDivisionError]. *)
Theorem calculate_cpl_spec (spend : Float.float) (conv : Z)
    (cpa : option Float.float) :
  calculate_cpl spend conv cpa
  = match cpa with
    | Some c => Ok (Some c)
    | None =>
        if 0 <? conv
        then y <- Float.of_int conv ;; Ok (Some (Float.div spend y))
        else Ok None
    end /\
  calculate_cpl spend conv cpa <> Raise ZeroDivisionError.
Proof.
  split; [apply calculate_cpl_cases|].
  rewrite calculate_cpl_cases.
  destruct cpa as [c|]; [discriminate|].
  destruct (0 <? conv); [|discriminate].
  unfold Float.of_int.
  destruct (Z.abs conv <? Float.overflow_threshold); discriminate.
Qed.

Lemma metrics_ok (item : Raw.item) (spend : Float.float) (conv : Z)
    (cpl : option Float.float) :
  metrics item = Ok (spend, conv, cpl) ->
  exists cpa,
    spend_of item = Ok spend /\
    extract_action_value (Raw.actions item) ACTION_TYPE = Ok conv /\
    extract_cost_per_action (Raw.cost_per_action_type item) ACTION_TYPE
    = Ok cpa /\
    calculate_cpl spend conv cpa = Ok cpl.
Proof.
  unfold metrics.
  destruct (spend_of item) as [s|e]; cbn [bind]; [|discriminate].
  destruct (extract_action_value _ _) as [c|e]; cbn [bind]; [|discriminate].
  destruct (extract_cost_per_action _ _) as [a|e]; cbn [bind]; [|discriminate].
  destruct (calculate_cpl s c a) as [l|e] eqn:Hl; cbn [bind]; [|discriminate].
  intros H. injection H as <- <- <-. exists a. auto.
Qed.

Lemma metrics_spend_raise (item : Raw.item) (e : exn) :
  spend_of item = Raise e -> metrics item = Raise e.
Proof. unfold metrics. intros ->. reflexivity. Qed.

Lemma entry_spend_raise (item : Raw.item) (e : exn) :
  spend_of item = Raise e ->
  campaign_entry item = Raise e /\
  adset_entry item = Raise e /\
  ad_entry item = Raise e.
Proof.
  intros H. apply metrics_spend_raise in H.
  unfold campaign_entry, adset_entry, ad_entry. rewrite H. auto.
Qed.

Lemma campaign_entry_id (item : Raw.item) (e : Entry.t) :
  campaign_entry item = Ok e -> Entry.id e = Raw.campaign_id item.
Proof.
  unfold campaign_entry.
  destruct (metrics item) as [[[s c] l]|?]; cbn [bind]; [|discriminate].
  intros H. injection H as <-. reflexivity.
Qed.

Lemma adset_entry_id (item : Raw.item) (e : Entry.t) :
  adset_entry item = Ok e -> Entry.id e = Raw.adset_id item.
Proof.
  unfold adset_entry.
  destruct (metrics item) as [[[s c] l]|?]; cbn [bind]; [|discriminate].
  intros H. injection H as <-. reflexivity.
Qed.

Lemma ad_entry_id (item : Raw.item) (e : Entry.t) :
  ad_entry item = Ok e -> Entry.id e = Raw.ad_id item.
Proof.
  unfold ad_entry.
  destruct (metrics item) as [[[s c] l]|?]; cbn [bind]; [|discriminate].
  intros H. injection H as <-. reflexivity.
Qed.

(** ** The collection cycle *)

Lemma get_meta_insights_raise (source : Source) (level : string) (e : exn) :
  source level = Raise e ->
  get_meta_insights source level = Raise (HTTPException 500).
Proof. unfold get_meta_insights. intros ->. reflexivity. Qed.

Lemma get_meta_insights_data (source : Source) (level : string)
    (items : list Raw.item) :
  source level = Ok (Some items) -> get_meta_insights source level = Ok items.
Proof. unfold get_meta_insights. intros ->. reflexivity. Qed.

(** An exception of the [try] block is answered with a 500, and the store
    is the one before the call. *)
Lemma collect_raise (API_KEY : string) (source : Source) (now : datetime)
    (db : Store) (e : exn) :
  collect_try source now db = Raise e ->
  collect API_KEY API_KEY source now db = (Raise (HTTPException 500), db).
Proof.
  intros H. unfold collect. rewrite verify_api_key_same, H. reflexivity.
Qed.

Lemma collect_error_keeps_store (API_KEY x_api_key : string) (source : Source)
    (now : datetime) (db : Store) (e : exn) :
  collect_try source now db = Raise e ->
  snd (collect API_KEY x_api_key source now db) = db /\
  exists err, fst (collect API_KEY x_api_key source now db) = Raise err.
Proof.
  intros H. unfold collect. rewrite H.
  destruct (verify_api_key API_KEY x_api_key); simpl; eauto.
Qed.

Lemma collect_try_fetch_failure (source : Source) (now : datetime) (db : Store)
    (level : string) (e : exn) :
  In level levels -> source level = Raise e ->
  exists e', collect_try source now db = Raise e'.
Proof.
  intros Hl He. apply get_meta_insights_raise in He.
  unfold collect_try.
  destruct Hl as [<-|[<-|[<-|[]]]].
  - rewrite He. cbn [bind]. eauto.
  - destruct (get_meta_insights source "campaign"); cbn [bind]; [|eauto].
    rewrite He. cbn [bind]. eauto.
  - destruct (get_meta_insights source "campaign"); cbn [bind]; [|eauto].
    destruct (get_meta_insights source "adset"); cbn [bind]; [|eauto].
    rewrite He. cbn [bind]. eauto.
Qed.

(** C8. When the request for one level's raw data fails, the collection
    cycle ends with an error for the caller, a 500 when the key was right,
    and the store is the one before the call: no snapshot is written, not
    even a partial one. *)
Theorem fetch_failure_aborts_collect (API_KEY x_api_key : string)
    (source : Source) (now : datetime) (db : Store) (level : string)
    (e : exn) :
  In level levels ->
  source level = Raise e ->
  snd (collect API_KEY x_api_key source now db) = db /\
  (exists err, fst (collect API_KEY x_api_key source now db) = Raise err) /\
  (x_api_key = API_KEY ->
   fst (collect API_KEY x_api_key source now db) = Raise (HTTPException 500)).
Proof.
  intros Hl He.
  destruct (collect_try_fetch_failure source now db level e Hl He) as [e' Hr].
  destruct (collect_error_keeps_store API_KEY x_api_key source now db e' Hr)
    as [Hs Hf].
  split; [assumption|]. split; [assumption|].
  intros ->. now rewrite (collect_raise API_KEY source now db e' Hr).
Qed.

Lemma fetch_failure_aborts_collect_witness :
  (In "adset" levels /\
   adsets_down second_fetch "adset" = Raise RequestException) /\
  snd (collect "secret" "secret" (adsets_down second_fetch) half_past_ten
         store_after_first) = store_after_first /\
  (exists err,
     fst (collect "secret" "secret" (adsets_down second_fetch) half_past_ten
            store_after_first) = Raise err) /\
  ("secret" = "secret" ->
   fst (collect "secret" "secret" (adsets_down second_fetch) half_past_ten
          store_after_first) = Raise (HTTPException 500)).
Proof.
  assert (H1 : In "adset" levels) by (simpl; auto).
  assert (H2 : adsets_down second_fetch "adset" = Raise RequestException)
    by reflexivity.
  split; [exact (conj H1 H2)|].
  exact (fetch_failure_aborts_collect "secret" "secret"
           (adsets_down second_fetch) half_past_ten store_after_first
           "adset" RequestException H1 H2).
Defined.

Lemma collect_try_spend_failure (source : Source) (now : datetime)
    (db : Store) (level : string) (items : list Raw.item) (item : Raw.item)
    (e : exn) :
  In level levels ->
  source level = Ok (Some items) ->
  In item items ->
  spend_of item = Raise e ->
  exists e', collect_try source now db = Raise e'.
Proof.
  intros Hl Hdata Hin Hspend.
  apply get_meta_insights_data in Hdata.
  destruct (entry_spend_raise item e Hspend) as (Hc & Ha & Hd).
  unfold collect_try.
  destruct Hl as [<-|[<-|[<-|[]]]].
  - rewrite Hdata. cbn [bind].
    destruct (get_meta_insights source "adset"); cbn [bind]; [|eauto].
    destruct (get_meta_insights source "ad"); cbn [bind]; [|eauto].
    destruct (for_each_raise campaign_entry items item e Hin Hc) as [e' ->].
    cbn [bind]. eauto.
  - destruct (get_meta_insights source "campaign"); cbn [bind]; [|eauto].
    rewrite Hdata. cbn [bind].
    destruct (get_meta_insights source "ad"); cbn [bind]; [|eauto].
    destruct (for_each campaign_entry _); cbn [bind]; [|eauto].
    destruct (for_each_raise adset_entry items item e Hin Ha) as [e' ->].
    cbn [bind]. eauto.
  - destruct (get_meta_insights source "campaign"); cbn [bind]; [|eauto].
    destruct (get_meta_insights source "adset"); cbn [bind]; [|eauto].
    rewrite Hdata. cbn [bind].
    destruct (for_each campaign_entry _); cbn [bind]; [|eauto].
    destruct (for_each adset_entry _); cbn [bind]; [|eauto].
    destruct (for_each_raise ad_entry items item e Hin Hd) as [e' ->].
    cbn [bind]. eauto.
Qed.

(** C5, as the code has it.  The spend of a raw record is 0.0 when the
    record has no spend; when it has one that [float] accepts, the spend
    is the value [float] gives, its sign included; when [float] raises on
    it, the normalisation of the record raises as well, and a collection
    cycle that meets the record answers with a 500 and writes no
    snapshot. *)
Theorem spend_normalisation (item : Raw.item) :
  (Raw.spend item = None -> spend_of item = Ok Float.zero) /\
  (forall v, Raw.spend item = Some v -> spend_of item = py_float v) /\
  (forall e, spend_of item = Raise e ->
     campaign_entry item = Raise e /\
     adset_entry item = Raise e /\
     ad_entry item = Raise e /\
     forall API_KEY source now db level items,
       In level levels ->
       source level = Ok (Some items) ->
       In item items ->
       collect API_KEY API_KEY source now db
       = (Raise (HTTPException 500), db)).
Proof.
  split; [|split].
  - intros H. unfold spend_of. rewrite H. vm_compute. reflexivity.
  - intros v H. unfold spend_of. rewrite H. reflexivity.
  - intros e He.
    destruct (entry_spend_raise item e He) as (Hc & Ha & Hd).
    repeat (split; [assumption|]).
    intros API_KEY source now db level items Hl Hdata Hin.
    destruct (collect_try_spend_failure source now db level items item e
                Hl Hdata Hin He) as [e' Hr].
    now apply (collect_raise API_KEY source now db e').
Qed.

Lemma spend_normalisation_witness :
  spend_of no_spend_item = Ok Float.zero /\
  spend_of negative_spend_item = py_float (Str "-1.5") /\
  collect "secret" "secret"
    (campaigns_only (second_fetch ++ [malformed_spend_item]))
    half_past_ten store_after_first
  = (Raise (HTTPException 500), store_after_first).
Proof.
  split; [|split].
  - apply (proj1 (spend_normalisation no_spend_item)). reflexivity.
  - apply (proj1 (proj2 (spend_normalisation negative_spend_item))).
    reflexivity.
  - apply (proj2 (proj2 (spend_normalisation malformed_spend_item))
             ValueError)
      with (level := "campaign")
           (items := (second_fetch ++ [malformed_spend_item])%list).
    + vm_compute. reflexivity.
    + simpl. auto.
    + reflexivity.
    + apply in_or_app. right. left. reflexivity.
Defined.

(** C5 fails as stated: a spend that [float] rejects is not read as 0 but
    fails the whole collection cycle, which leaves the store as it was; a
    negative spend is stored negative. *)
Lemma malformed_spend_fails_the_cycle :
  Raw.spend malformed_spend_item = Some (Str "abc") /\
  campaign_entry malformed_spend_item = Raise ValueError /\
  collect "secret" "secret"
    (campaigns_only (second_fetch ++ [malformed_spend_item]))
    half_past_ten store_after_first
  = (Raise (HTTPException 500), store_after_first) /\
  collect "secret" "secret" (campaigns_only second_fetch)
    half_past_ten store_after_first
  = (Ok three_campaigns_collected, store_after_second) /\
  campaign_entry negative_spend_item = Ok negative_spend_entry /\
  Float.ltb (Entry.spend negative_spend_entry) Float.zero = true.
Proof. repeat split; vm_compute; reflexivity. Qed.

Lemma calculate_cpl_not_negative (spend : Float.float) (conv : Z)
    (cpa : option Float.float) (x : Float.float) :
  Float.leb Float.zero spend = true ->
  (forall c, cpa = Some c -> Float.ltb c Float.zero = false) ->
  calculate_cpl spend conv cpa = Ok (Some x) ->
  Float.ltb x Float.zero = false.
Proof.
  intros Hs Hcpa H.
  rewrite calculate_cpl_cases in H.
  destruct cpa as [c|].
  - injection H as <-. now apply Hcpa.
  - destruct (0 <? conv) eqn:Hc; [|discriminate].
    apply Z.ltb_lt in Hc.
    destruct (Float.of_int conv) as [y|e] eqn:Hy; cbn [bind] in H;
      [|discriminate].
    injection H as <-. apply div_not_negative; [assumption|].
    now apply (of_int_pos conv).
Qed.

Lemma calculate_cpl_null (spend : Float.float) (conv : Z)
    (cpa cpl : option Float.float) :
  0 <= conv ->
  calculate_cpl spend conv cpa = Ok cpl ->
  (cpl = None <-> conv = 0 /\ cpa = None).
Proof.
  intros Hconv H.
  rewrite calculate_cpl_cases in H.
  destruct cpa as [c|].
  - injection H as <-. split; [discriminate | intros [_ ?]; discriminate].
  - destruct (0 <? conv) eqn:Hc.
    + apply Z.ltb_lt in Hc.
      destruct (Float.of_int conv); cbn [bind] in H; [|discriminate].
      injection H as <-. split; [discriminate | lia].
    + apply Z.ltb_ge in Hc. injection H as <-.
      split; [intros _; split; [lia | reflexivity] | reflexivity].
Qed.

(** C6, as the code has it.  For a record normalised from a non-negative
    spend and non-negative conversions, the cost per conversion is not
    negative as long as the cost per action the source reports, if it
    reports one, is not negative: a reported cost is taken over as it is.
    The cost is null exactly when the conversions are 0 and the source
    reports no cost per action. *)
Theorem cost_per_conversion_invariant (item : Raw.item)
    (spend : Float.float) (conv : Z) (cpl : option Float.float) :
  metrics item = Ok (spend, conv, cpl) ->
  Float.leb Float.zero spend = true ->
  0 <= conv ->
  exists cpa,
    extract_cost_per_action (Raw.cost_per_action_type item) ACTION_TYPE
    = Ok cpa /\
    ((forall c, cpa = Some c -> Float.ltb c Float.zero = false) ->
     forall x, cpl = Some x -> Float.ltb x Float.zero = false) /\
    (cpl = None <-> conv = 0 /\ cpa = None).
Proof.
  intros Hm Hs Hc.
  destruct (metrics_ok item spend conv cpl Hm) as (cpa & _ & _ & Hcpa & Hcpl).
  exists cpa. split; [assumption|]. split.
  - intros Hrep x ->.
    now apply (calculate_cpl_not_negative spend conv cpa x).
  - now apply (calculate_cpl_null spend conv cpa cpl).
Qed.

Lemma cost_per_conversion_invariant_witness :
  (metrics (raw_campaign "X" "100" (Some [action ACTION_TYPE "5"]) None)
   = Ok (Float.round 100 0, 5, Some (Float.round 20 0)) /\
   Float.leb Float.zero (Float.round 100 0) = true /\
   0 <= 5) /\
  exists cpa,
    extract_cost_per_action
      (Raw.cost_per_action_type
         (raw_campaign "X" "100" (Some [action ACTION_TYPE "5"]) None))
      ACTION_TYPE
    = Ok cpa /\
    ((forall c, cpa = Some c -> Float.ltb c Float.zero = false) ->
     forall x, Some (Float.round 20 0) = Some x ->
               Float.ltb x Float.zero = false) /\
    (Some (Float.round 20 0) = None <-> 5 = 0 /\ cpa = None).
Proof.
  assert (H1 : metrics (raw_campaign "X" "100"
                          (Some [action ACTION_TYPE "5"]) None)
               = Ok (Float.round 100 0, 5, Some (Float.round 20 0)))
    by (vm_compute; reflexivity).
  assert (H2 : Float.leb Float.zero (Float.round 100 0) = true)
    by (vm_compute; reflexivity).
  assert (H3 : 0 <= 5) by lia.
  split; [exact (conj H1 (conj H2 H3))|].
  exact (cost_per_conversion_invariant _ _ _ _ H1 H2 H3).
Defined.

(** C6 fails as stated: spend 10 and 2 conversions are not negative, the
    source reports a cost per action of -1, and the cost of the record is
    that -1. *)
Lemma reported_negative_cost_is_kept :
  campaign_entry negative_cost_item = Ok negative_cost_entry /\
  Float.leb Float.zero (Entry.spend negative_cost_entry) = true /\
  0 <= Entry.conv negative_cost_entry /\
  Entry.cpl negative_cost_entry = Some (Float.round (-1) 0) /\
  Float.ltb (Float.round (-1) 0) Float.zero = true.
Proof.
  split; [vm_compute; reflexivity|].
  split; [vm_compute; reflexivity|].
  split; [vm_compute; discriminate|].
  split; vm_compute; reflexivity.
Qed.

(** ** Ids within a snapshot *)

Lemma collect_try_ok (source : Source) (now : datetime) (db db' : Store)
    (response : CollectResponse) :
  collect_try source now db = Ok (response, db') ->
  exists snapshot campaigns adsets ads,
    db' = document_set (strftime_doc_id now) snapshot db /\
    get_meta_insights source "campaign" = Ok campaigns /\
    get_meta_insights source "adset" = Ok adsets /\
    get_meta_insights source "ad" = Ok ads /\
    for_each campaign_entry campaigns = Ok (campaign snapshot) /\
    for_each adset_entry adsets = Ok (adset snapshot) /\
    for_each ad_entry ads = Ok (ad snapshot).
Proof.
  unfold collect_try.
  destruct (get_meta_insights source "campaign") as [campaigns|?];
    cbn [bind]; [|discriminate].
  destruct (get_meta_insights source "adset") as [adsets|?];
    cbn [bind]; [|discriminate].
  destruct (get_meta_insights source "ad") as [ads|?];
    cbn [bind]; [|discriminate].
  destruct (for_each campaign_entry campaigns) as [cs|?] eqn:Hcs;
    cbn [bind]; [|discriminate].
  destruct (for_each adset_entry adsets) as [ss|?] eqn:Hss;
    cbn [bind]; [|discriminate].
  destruct (for_each ad_entry ads) as [ds|?] eqn:Hds;
    cbn [bind]; [|discriminate].
  intros H. injection H as _ <-.
  eexists _, campaigns, adsets, ads.
  split; [reflexivity|]. repeat (split; [reflexivity|]).
  cbn [campaign adset ad]. auto.
Qed.

Lemma entries_ids (body : Raw.item -> result Entry.t)
    (raw_id : Raw.item -> option string) (items : list Raw.item)
    (seq : list Entry.t) :
  (forall item e, body item = Ok e -> Entry.id e = raw_id item) ->
  for_each body items = Ok seq ->
  map Entry.id seq = map raw_id items.
Proof.
  intros Hid H. apply for_each_ok in H. symmetry.
  eapply Forall2_map; [|exact H].
  intros item e He. symmetry. now apply Hid.
Qed.

(** C7, as the code has it.  In a snapshot the builder writes, the ids of
    a level's sequence are the ids of the source's records in the source's
    order, one record per raw record: they are pairwise different when the
    source's are, and an id the source repeats is stored as often.  It is
    the index the delta engine builds from the sequence whose keys are
    pairwise different, the last record with an id being the one kept. *)
Theorem snapshot_ids_follow_source (API_KEY x_api_key : string)
    (source : Source) (now : datetime) (db db' : Store)
    (response : CollectResponse) :
  collect API_KEY x_api_key source now db = (Ok response, db') ->
  exists snapshot campaigns adsets ads,
    db' = document_set (strftime_doc_id now) snapshot db /\
    get_meta_insights source "campaign" = Ok campaigns /\
    get_meta_insights source "adset" = Ok adsets /\
    get_meta_insights source "ad" = Ok ads /\
    map Entry.id (campaign snapshot) = map Raw.campaign_id campaigns /\
    map Entry.id (adset snapshot) = map Raw.adset_id adsets /\
    map Entry.id (ad snapshot) = map Raw.ad_id ads /\
    forall level,
      NoDup (map fst (index_by_id (level_records snapshot level))) /\
      forall l1 e l2,
        level_records snapshot level = (l1 ++ e :: l2)%list ->
        ~ In (Entry.id e) (map Entry.id l2) ->
        dict_get (Entry.id e) (index_by_id (level_records snapshot level))
        = Some e.
Proof.
  unfold collect.
  destruct (verify_api_key API_KEY x_api_key); [|discriminate].
  destruct (collect_try source now db) as [[response' db'']|?] eqn:Htry;
    [|discriminate].
  intros H. injection H as _ <-.
  destruct (collect_try_ok source now db db'' response' Htry)
    as (snapshot & campaigns & adsets & ads & Hdb & Hc & Ha & Hd
        & Hcs & Has & Hds).
  exists snapshot, campaigns, adsets, ads.
  repeat (split; [assumption|]).
  split; [exact (entries_ids _ _ _ _ campaign_entry_id Hcs)|].
  split; [exact (entries_ids _ _ _ _ adset_entry_id Has)|].
  split; [exact (entries_ids _ _ _ _ ad_entry_id Hds)|].
  intros level. split; [apply index_by_id_nodup|].
  intros l1 e l2 -> Hlast. now apply index_by_id_last_wins.
Qed.

Lemma snapshot_ids_follow_source_witness :
  collect "secret" "secret" (campaigns_only second_fetch) half_past_ten
    store_after_first
  = (Ok three_campaigns_collected, store_after_second) /\
  exists snapshot campaigns adsets ads,
    store_after_second
    = document_set (strftime_doc_id half_past_ten) snapshot store_after_first /\
    get_meta_insights (campaigns_only second_fetch) "campaign" = Ok campaigns /\
    get_meta_insights (campaigns_only second_fetch) "adset" = Ok adsets /\
    get_meta_insights (campaigns_only second_fetch) "ad" = Ok ads /\
    map Entry.id (campaign snapshot) = map Raw.campaign_id campaigns /\
    map Entry.id (adset snapshot) = map Raw.adset_id adsets /\
    map Entry.id (ad snapshot) = map Raw.ad_id ads /\
    forall level,
      NoDup (map fst (index_by_id (level_records snapshot level))) /\
      forall l1 e l2,
        level_records snapshot level = (l1 ++ e :: l2)%list ->
        ~ In (Entry.id e) (map Entry.id l2) ->
        dict_get (Entry.id e) (index_by_id (level_records snapshot level))
        = Some e.
Proof.
  assert (H : collect "secret" "secret" (campaigns_only second_fetch)
                half_past_ten store_after_first
              = (Ok three_campaigns_collected, store_after_second))
    by (vm_compute; reflexivity).
  split; [exact H|].
  exact (snapshot_ids_follow_source "secret" "secret"
           (campaigns_only second_fetch) half_past_ten store_after_first
           store_after_second three_campaigns_collected H).
Defined.

(** C7 fails as stated: the source sends campaign X twice, and the
    sequence of the snapshot that is written has the id X twice. *)
Lemma repeated_id_is_stored_twice :
  snd (collect "secret" "secret" (campaigns_only repeated_id_fetch)
         ten_o_clock [])
  = [("20240501_1000", repeated_id_snapshot)] /\
  map Entry.id (campaign repeated_id_snapshot) = [Some "X"; Some "X"] /\
  ~ NoDup (map Entry.id (campaign repeated_id_snapshot)).
Proof.
  assert (Hids : map Entry.id (campaign repeated_id_snapshot)
                 = [Some "X"; Some "X"]) by (vm_compute; reflexivity).
  split; [vm_compute; reflexivity|]. split; [exact Hids|].
  rewrite Hids. intros Hnd. inversion Hnd as [|? ? Hnotin _]; subst.
  apply Hnotin. left. reflexivity.
Qed.

(** ** A matching entry without a value *)

Lemma first_match_not_falsy (entries : option (list Raw.action))
    (action_type : string) (entry : Raw.action) :
  first_match (get entries []) action_type = Some entry ->
  falsy entries = false.
Proof. destruct entries as [[|a l]|]; simpl; congruence. Qed.

(** C10, as the code has it.  When the first entry of the cost-per-action
    list whose action type is the target has no value, the extraction
    gives 0.0 and not null; [calculate_cpl] then gives 0.0 whatever spend
    and conversions are, so the cost of the record is 0.0 and is not
    computed from the spend. *)
Theorem first_match_without_value (item : Raw.item) (entry : Raw.action) :
  first_match (get (Raw.cost_per_action_type item) []) ACTION_TYPE
  = Some entry ->
  Raw.value entry = None ->
  extract_cost_per_action (Raw.cost_per_action_type item) ACTION_TYPE
  = Ok (Some Float.zero) /\
  (forall spend conv,
     calculate_cpl spend conv (Some Float.zero) = Ok (Some Float.zero)) /\
  (forall spend conv cpl,
     metrics item = Ok (spend, conv, cpl) -> cpl = Some Float.zero).
Proof.
  intros Hfirst Hvalue.
  assert (Hx : extract_cost_per_action (Raw.cost_per_action_type item)
                 ACTION_TYPE = Ok (Some Float.zero)).
  { unfold extract_cost_per_action.
    rewrite (first_match_not_falsy _ _ _ Hfirst), Hfirst, Hvalue.
    vm_compute. reflexivity. }
  split; [exact Hx|]. split; [reflexivity|].
  intros spend conv cpl Hm.
  destruct (metrics_ok item spend conv cpl Hm) as (cpa & _ & _ & Hcpa & Hcpl).
  rewrite Hx in Hcpa. injection Hcpa as <-.
  simpl in Hcpl. congruence.
Qed.

Lemma first_match_without_value_witness :
  (first_match (get (Raw.cost_per_action_type no_value_item) []) ACTION_TYPE
   = Some {| Raw.action_type := Some ACTION_TYPE; Raw.value := None |} /\
   Raw.value {| Raw.action_type := Some ACTION_TYPE; Raw.value := None |}
   = None) /\
  extract_cost_per_action (Raw.cost_per_action_type no_value_item) ACTION_TYPE
  = Ok (Some Float.zero) /\
  (forall spend conv,
     calculate_cpl spend conv (Some Float.zero) = Ok (Some Float.zero)) /\
  (forall spend conv cpl,
     metrics no_value_item = Ok (spend, conv, cpl) -> cpl = Some Float.zero).
Proof.
  assert (H1 : first_match (get (Raw.cost_per_action_type no_value_item) [])
                 ACTION_TYPE
               = Some {| Raw.action_type := Some ACTION_TYPE;
                         Raw.value := None |})
    by (vm_compute; reflexivity).
  assert (H2 : Raw.value {| Raw.action_type := Some ACTION_TYPE;
                            Raw.value := None |} = None)
    by reflexivity.
  split; [exact (conj H1 H2)|].
  exact (first_match_without_value no_value_item _ H1 H2).
Defined.

(** C10 fails as stated: the list has an entry for the target without a
    value, but an earlier entry for the target has the value 5, and the
    extraction gives 5.0. *)
Lemma earlier_match_wins :
  In {| Raw.action_type := Some ACTION_TYPE; Raw.value := None |} two_matches /\
  has_action_type {| Raw.action_type := Some ACTION_TYPE; Raw.value := None |}
    ACTION_TYPE = true /\
  extract_cost_per_action (Some two_matches) ACTION_TYPE
  = Ok (Some (Float.round 5 0)) /\
  Float.round 5 0 <> Float.zero.
Proof.
  split; [right; left; reflexivity|].
  split; [vm_compute; reflexivity|].
  split; [vm_compute; reflexivity|].
  vm_compute. discriminate.
Qed.

(** * Further properties of the handlers *)

Lemma verify_api_key_wrong (API_KEY x_api_key : string) :
  x_api_key <> API_KEY ->
  verify_api_key API_KEY x_api_key = Raise (HTTPException 401).
Proof.
  intros H. unfold verify_api_key.
  apply String.eqb_neq in H. now rewrite H.
Qed.

(** X1. A request with a wrong key is refused with a 401 by both
    handlers, before anything else happens: [collect] leaves the store as
    it is, whatever the source would have answered. *)
Theorem wrong_key_is_refused (API_KEY x_api_key level : string)
    (source : Source) (now : datetime) (db : Store) :
  x_api_key <> API_KEY ->
  collect API_KEY x_api_key source now db = (Raise (HTTPException 401), db) /\
  get_intraday API_KEY level x_api_key db = Raise (HTTPException 401).
Proof.
  intros H. unfold collect, get_intraday.
  rewrite (verify_api_key_wrong _ _ H). split; reflexivity.
Qed.

Lemma wrong_key_is_refused_witness :
  "guess" <> "secret" /\
  collect "secret" "guess" (campaigns_only second_fetch) half_past_ten
    store_after_first
  = (Raise (HTTPException 401), store_after_first) /\
  get_intraday "secret" "campaign" "guess" store_after_first
  = Raise (HTTPException 401).
Proof.
  assert (H : "guess" <> "secret") by discriminate.
  split; [exact H|].
  exact (wrong_key_is_refused "secret" "guess" "campaign"
           (campaigns_only second_fetch) half_past_ten store_after_first H).
Defined.

(** X2. With the right key, a level other than the three known ones is
    answered with a 400, whatever the store holds. *)
Theorem unknown_level_is_rejected (API_KEY level : string) (db : Store) :
  ~ In level levels ->
  get_intraday API_KEY level API_KEY db = Raise (HTTPException 400).
Proof.
  intros H. unfold get_intraday. rewrite verify_api_key_same. unfold bind.
  destruct (existsb (String.eqb level) levels) eqn:He; [|reflexivity].
  exfalso. apply existsb_exists in He. destruct He as (l & Hl & Heq).
  apply String.eqb_eq in Heq. subst l. contradiction.
Qed.

Lemma unknown_level_is_rejected_witness :
  ~ In "account" levels /\
  get_intraday "secret" "account" "secret" store_after_second
  = Raise (HTTPException 400).
Proof.
  assert (H : ~ In "account" levels).
  { simpl. intros [H|[H|[H|[]]]]; discriminate H. }
  split; [exact H|].
  exact (unknown_level_is_rejected "secret" "account" store_after_second H).
Defined.

(** The store after a cycle is the store before it, or that store with
    the document of the cycle's minute set. *)
Lemma collect_store_cases (API_KEY x_api_key : string) (source : Source)
    (now : datetime) (db : Store) :
  snd (collect API_KEY x_api_key source now db) = db \/
  exists snapshot,
    snd (collect API_KEY x_api_key source now db)
    = document_set (strftime_doc_id now) snapshot db.
Proof.
  unfold collect.
  destruct (verify_api_key API_KEY x_api_key); [|left; reflexivity].
  destruct (collect_try source now db) as [[response db']|e] eqn:Htry;
    [|left; reflexivity].
  right. apply collect_try_ok in Htry.
  destruct Htry as (snapshot & _ & _ & _ & -> & _).
  exists snapshot. reflexivity.
Qed.

(** X3. A collection cycle is all or nothing.  Either it answers with
    success and the store is the old one with one document set, the one of
    the cycle's minute; or it answers with a 401 or a 500 and the store is
    the old one.  No other exception reaches the caller. *)
Theorem collect_is_all_or_nothing (API_KEY x_api_key : string)
    (source : Source) (now : datetime) (db : Store) :
  (exists response snapshot,
     collect API_KEY x_api_key source now db
     = (Ok response, document_set (strftime_doc_id now) snapshot db)) \/
  collect API_KEY x_api_key source now db = (Raise (HTTPException 401), db) \/
  collect API_KEY x_api_key source now db = (Raise (HTTPException 500), db).
Proof.
  unfold collect, verify_api_key.
  destruct (String.eqb x_api_key API_KEY); [|auto].
  destruct (collect_try source now db) as [[response db']|e] eqn:Htry; [|auto].
  left. apply collect_try_ok in Htry.
  destruct Htry as (snapshot & _ & _ & _ & -> & _). eauto.
Qed.

(** X4. The answer of the delta engine is a list or one of three errors:
    401, 400 or 500. *)
Theorem get_intraday_errors (API_KEY level x_api_key : string) (db : Store)
    (e : exn) :
  get_intraday API_KEY level x_api_key db = Raise e ->
  e = HTTPException 401 \/ e = HTTPException 400 \/ e = HTTPException 500.
Proof.
  unfold get_intraday, verify_api_key.
  destruct (String.eqb x_api_key API_KEY); unfold bind.
  - destruct (negb _).
    + intros H. injection H as <-. auto.
    + destruct (get_intraday_try level db); [discriminate|].
      intros H. injection H as <-. auto.
  - intros H. injection H as <-. auto.
Qed.

Lemma get_intraday_errors_witness :
  get_intraday "secret" "account" "secret" store_after_second
  = Raise (HTTPException 400) /\
  (HTTPException 400 = HTTPException 401 \/
   HTTPException 400 = HTTPException 400 \/
   HTTPException 400 = HTTPException 500).
Proof.
  assert (H : get_intraday "secret" "account" "secret" store_after_second
              = Raise (HTTPException 400)) by (vm_compute; reflexivity).
  split; [exact H|].
  exact (get_intraday_errors "secret" "account" "secret" store_after_second
           (HTTPException 400) H).
Defined.

(** ** The scan of an action list *)

Lemma first_match_none (entries : list Raw.action) (action_type : string) :
  first_match entries action_type = None <->
  forall a, In a entries -> has_action_type a action_type = false.
Proof.
  induction entries as [|a entries IH]; simpl.
  - split; [intros _ b [] | reflexivity].
  - destruct (has_action_type a action_type) eqn:Ha.
    + split; [discriminate|]. intros H.
      specialize (H a (or_introl eq_refl)). congruence.
    + rewrite IH. split.
      * intros H b [<-|Hb]; auto.
      * intros H b Hb. apply H. now right.
Qed.

Lemma first_match_app (l1 l2 : list Raw.action) (a : Raw.action)
    (action_type : string) :
  (forall b, In b l1 -> has_action_type b action_type = false) ->
  has_action_type a action_type = true ->
  first_match (l1 ++ a :: l2)%list action_type = Some a.
Proof.
  intros Hl1 Ha. induction l1 as [|b l1 IH]; simpl.
  - now rewrite Ha.
  - rewrite (Hl1 b (or_introl eq_refl)). apply IH.
    intros c Hc. apply Hl1. now right.
Qed.

Lemma falsy_get {A : Type} (xs : option (list A)) :
  falsy xs = true -> get xs [] = [].
Proof. destruct xs as [[|x l]|]; simpl; congruence. Qed.

Lemma extract_cost_per_action_null (entries : option (list Raw.action))
    (action_type : string) :
  extract_cost_per_action entries action_type = Ok None <->
  first_match (get entries []) action_type = None.
Proof.
  unfold extract_cost_per_action.
  destruct (falsy entries) eqn:Hf.
  - rewrite (falsy_get _ Hf). simpl. split; reflexivity.
  - destruct (first_match (get entries []) action_type) as [a|].
    + split; [|discriminate]. destruct (py_float _); discriminate.
    + split; reflexivity.
Qed.

Lemma extract_action_value_zero (entries : option (list Raw.action))
    (action_type : string) :
  first_match (get entries []) action_type = None ->
  extract_action_value entries action_type = Ok 0.
Proof.
  unfold extract_action_value. intros H.
  destruct (falsy entries); [reflexivity|]. now rewrite H.
Qed.

(** X5. The extraction of the cost per action gives null exactly when no
    entry of the list has the target action type, a missing or empty list
    included; the extraction of the conversions then gives 0. *)
Theorem extraction_without_match (entries : option (list Raw.action))
    (action_type : string) :
  (extract_cost_per_action entries action_type = Ok None <->
   forall a, In a (get entries []) -> has_action_type a action_type = false) /\
  ((forall a, In a (get entries []) -> has_action_type a action_type = false) ->
   extract_action_value entries action_type = Ok 0).
Proof.
  rewrite <- first_match_none. split.
  - apply extract_cost_per_action_null.
  - apply extract_action_value_zero.
Qed.

Lemma extraction_without_match_witness :
  (forall a, In a (get (Some [action "link_click" "3"]) []) ->
             has_action_type a ACTION_TYPE = false) /\
  extract_cost_per_action (Some [action "link_click" "3"]) ACTION_TYPE
  = Ok None /\
  extract_action_value (Some [action "link_click" "3"]) ACTION_TYPE = Ok 0.
Proof.
  assert (H : forall a, In a (get (Some [action "link_click" "3"]) []) ->
                        has_action_type a ACTION_TYPE = false).
  { intros a [<-|[]]. vm_compute. reflexivity. }
  split; [exact H|]. split.
  - apply (proj1 (extraction_without_match
                    (Some [action "link_click" "3"]) ACTION_TYPE)).
    exact H.
  - apply (proj2 (extraction_without_match
                    (Some [action "link_click" "3"]) ACTION_TYPE)).
    exact H.
Defined.

(** X6. Both extractions stop at the first entry with the target action
    type: what follows it in the list, well formed or not, has no
    influence on the result. *)
Theorem extraction_stops_at_first_match (l1 l2 l2' : list Raw.action)
    (a : Raw.action) (action_type : string) :
  (forall b, In b l1 -> has_action_type b action_type = false) ->
  has_action_type a action_type = true ->
  extract_action_value (Some (l1 ++ a :: l2)%list) action_type
  = extract_action_value (Some (l1 ++ a :: l2')%list) action_type /\
  extract_cost_per_action (Some (l1 ++ a :: l2)%list) action_type
  = extract_cost_per_action (Some (l1 ++ a :: l2')%list) action_type /\
  extract_action_value (Some (l1 ++ a :: l2)%list) action_type
  = (x <- py_float (get (Raw.value a) (Num (Int 0))) ;; Float.to_int x).
Proof.
  intros Hl1 Ha.
  assert (Hnf : forall l, falsy (Some (l1 ++ a :: l)%list) = false)
    by (intros l; destruct l1; reflexivity).
  unfold extract_action_value, extract_cost_per_action.
  rewrite !Hnf. cbn [get].
  rewrite !(first_match_app l1 _ a action_type Hl1 Ha).
  repeat split.
Qed.

Lemma extraction_stops_at_first_match_witness :
  ((forall b, In b [action "link_click" "3"] ->
              has_action_type b ACTION_TYPE = false) /\
   has_action_type (action ACTION_TYPE "4.7") ACTION_TYPE = true) /\
  extract_action_value
    (Some ([action "link_click" "3"] ++ action ACTION_TYPE "4.7" :: [])%list)
    ACTION_TYPE
  = extract_action_value
      (Some ([action "link_click" "3"] ++ action ACTION_TYPE "4.7"
               :: [action ACTION_TYPE "not a number"])%list)
      ACTION_TYPE /\
  extract_cost_per_action
    (Some ([action "link_click" "3"] ++ action ACTION_TYPE "4.7" :: [])%list)
    ACTION_TYPE
  = extract_cost_per_action
      (Some ([action "link_click" "3"] ++ action ACTION_TYPE "4.7"
               :: [action ACTION_TYPE "not a number"])%list)
      ACTION_TYPE /\
  extract_action_value
    (Some ([action "link_click" "3"] ++ action ACTION_TYPE "4.7" :: [])%list)
    ACTION_TYPE
  = (x <- py_float (get (Raw.value (action ACTION_TYPE "4.7")) (Num (Int 0))) ;;
     Float.to_int x).
Proof.
  assert (H1 : forall b, In b [action "link_click" "3"] ->
                         has_action_type b ACTION_TYPE = false).
  { intros b [<-|[]]. vm_compute. reflexivity. }
  assert (H2 : has_action_type (action ACTION_TYPE "4.7") ACTION_TYPE = true)
    by (vm_compute; reflexivity).
  split; [exact (conj H1 H2)|].
  exact (extraction_stops_at_first_match [action "link_click" "3"] []
           [action ACTION_TYPE "not a number"] (action ACTION_TYPE "4.7")
           ACTION_TYPE H1 H2).
Defined.

(** X7. A record whose spend [float] accepts and whose lists name the
    target action nowhere is normalised to that spend, 0 conversions and
    no cost, at each of the three levels. *)
Theorem record_without_target_action (item : Raw.item) (spend : Float.float) :
  spend_of item = Ok spend ->
  (forall a, In a (get (Raw.actions item) []) ->
             has_action_type a ACTION_TYPE = false) ->
  (forall a, In a (get (Raw.cost_per_action_type item) []) ->
             has_action_type a ACTION_TYPE = false) ->
  metrics item = Ok (spend, 0, None) /\
  (exists e, campaign_entry item = Ok e /\ Entry.spend e = spend /\
             Entry.conv e = 0 /\ Entry.cpl e = None) /\
  (exists e, adset_entry item = Ok e /\ Entry.spend e = spend /\
             Entry.conv e = 0 /\ Entry.cpl e = None) /\
  (exists e, ad_entry item = Ok e /\ Entry.spend e = spend /\
             Entry.conv e = 0 /\ Entry.cpl e = None).
Proof.
  intros Hs Ha Hc.
  assert (Hm : metrics item = Ok (spend, 0, None)).
  { apply first_match_none in Ha. apply first_match_none in Hc.
    unfold metrics. rewrite Hs. cbn [bind].
    rewrite (extract_action_value_zero _ _ Ha). cbn [bind].
    rewrite (proj2 (extract_cost_per_action_null _ _) Hc). reflexivity. }
  split; [exact Hm|].
  unfold campaign_entry, adset_entry, ad_entry. rewrite Hm. cbn [bind].
  repeat split; eexists; repeat split.
Qed.

Lemma record_without_target_action_witness :
  (spend_of (raw_campaign "Y" "50" None None) = Ok (Float.round 50 0) /\
   (forall a, In a (get (Raw.actions (raw_campaign "Y" "50" None None)) []) ->
              has_action_type a ACTION_TYPE = false) /\
   (forall a,
      In a (get (Raw.cost_per_action_type (raw_campaign "Y" "50" None None)) []) ->
      has_action_type a ACTION_TYPE = false)) /\
  metrics (raw_campaign "Y" "50" None None) = Ok (Float.round 50 0, 0, None) /\
  (exists e, campaign_entry (raw_campaign "Y" "50" None None) = Ok e /\
             Entry.spend e = Float.round 50 0 /\
             Entry.conv e = 0 /\ Entry.cpl e = None) /\
  (exists e, adset_entry (raw_campaign "Y" "50" None None) = Ok e /\
             Entry.spend e = Float.round 50 0 /\
             Entry.conv e = 0 /\ Entry.cpl e = None) /\
  (exists e, ad_entry (raw_campaign "Y" "50" None None) = Ok e /\
             Entry.spend e = Float.round 50 0 /\
             Entry.conv e = 0 /\ Entry.cpl e = None).
Proof.
  assert (H1 : spend_of (raw_campaign "Y" "50" None None)
               = Ok (Float.round 50 0)) by (vm_compute; reflexivity).
  assert (H2 : forall a,
             In a (get (Raw.actions (raw_campaign "Y" "50" None None)) []) ->
             has_action_type a ACTION_TYPE = false) by (intros a []).
  assert (H3 : forall a,
             In a (get (Raw.cost_per_action_type
                          (raw_campaign "Y" "50" None None)) []) ->
             has_action_type a ACTION_TYPE = false) by (intros a []).
  split; [exact (conj H1 (conj H2 H3))|].
  exact (record_without_target_action (raw_campaign "Y" "50" None None)
           (Float.round 50 0) H1 H2 H3).
Defined.

(** ** What a collection cycle writes *)

Lemma entries_map {A : Type} (body : Raw.item -> result Entry.t)
    (field : Entry.t -> A) (raw : Raw.item -> A) (items : list Raw.item)
    (seq : list Entry.t) :
  (forall item e, body item = Ok e -> field e = raw item) ->
  for_each body items = Ok seq ->
  map field seq = map raw items.
Proof.
  intros Hf H. apply for_each_ok in H. symmetry.
  eapply Forall2_map; [|exact H].
  intros item e He. symmetry. now apply Hf.
Qed.

Lemma campaign_entry_fields (item : Raw.item) (e : Entry.t) :
  campaign_entry item = Ok e ->
  Entry.name e = get (Raw.campaign_name item) "" /\
  Entry.campaign_id e = None /\ Entry.adset_id e = None.
Proof.
  unfold campaign_entry.
  destruct (metrics item) as [[[s c] l]|?]; cbn [bind]; [|discriminate].
  intros H. injection H as <-. auto.
Qed.

Lemma adset_entry_fields (item : Raw.item) (e : Entry.t) :
  adset_entry item = Ok e ->
  Entry.name e = get (Raw.adset_name item) "" /\
  Entry.campaign_id e = Raw.campaign_id item /\ Entry.adset_id e = None.
Proof.
  unfold adset_entry.
  destruct (metrics item) as [[[s c] l]|?]; cbn [bind]; [|discriminate].
  intros H. injection H as <-. auto.
Qed.

Lemma ad_entry_fields (item : Raw.item) (e : Entry.t) :
  ad_entry item = Ok e ->
  Entry.name e = get (Raw.ad_name item) "" /\
  Entry.campaign_id e = Raw.campaign_id item /\
  Entry.adset_id e = Raw.adset_id item.
Proof.
  unfold ad_entry.
  destruct (metrics item) as [[[s c] l]|?]; cbn [bind]; [|discriminate].
  intros H. injection H as <-. auto.
Qed.

(** The store enters a cycle only in its last step: the rest of the
    [try] block does not look at it. *)
Lemma collect_try_store (source : Source) (now : datetime) :
  (exists e, forall db, collect_try source now db = Raise e) \/
  (exists response snapshot campaigns adsets ads,
     (forall db, collect_try source now db
                 = Ok (response, document_set (strftime_doc_id now) snapshot db)) /\
     get_meta_insights source "campaign" = Ok campaigns /\
     get_meta_insights source "adset" = Ok adsets /\
     get_meta_insights source "ad" = Ok ads /\
     for_each campaign_entry campaigns = Ok (campaign snapshot) /\
     for_each adset_entry adsets = Ok (adset snapshot) /\
     for_each ad_entry ads = Ok (ad snapshot) /\
     ts snapshot = isoformat now /\
     date snapshot = strftime_date now /\
     response = {| status := "success";
                   doc_id := strftime_doc_id now;
                   counts := (List.length campaigns, List.length adsets,
                              List.length ads) |}).
Proof.
  unfold collect_try.
  destruct (get_meta_insights source "campaign") as [campaigns|?];
    cbn [bind]; [|eauto].
  destruct (get_meta_insights source "adset") as [adsets|?];
    cbn [bind]; [|eauto].
  destruct (get_meta_insights source "ad") as [ads|?];
    cbn [bind]; [|eauto].
  destruct (for_each campaign_entry campaigns) as [cs|?] eqn:Hcs;
    cbn [bind]; [|eauto].
  destruct (for_each adset_entry adsets) as [ss|?] eqn:Hss;
    cbn [bind]; [|eauto].
  destruct (for_each ad_entry ads) as [ds|?] eqn:Hds;
    cbn [bind]; [|eauto].
  right. eexists _, _, campaigns, adsets, ads.
  split; [intros db; reflexivity|].
  cbn [campaign adset ad ts date]. repeat split; auto.
Qed.

Lemma collect_ok (API_KEY x_api_key : string) (source : Source)
    (now : datetime) (db db' : Store) (response : CollectResponse) :
  collect API_KEY x_api_key source now db = (Ok response, db') ->
  collect_try source now db = Ok (response, db').
Proof.
  unfold collect. destruct (verify_api_key _ _); [|discriminate].
  destruct (collect_try source now db) as [[r d]|?]; [|discriminate].
  intros H. now injection H as <- <-.
Qed.

(** X8. A successful cycle answers with the document id of its minute and
    the numbers of raw records it fetched, and the snapshot it stores
    under that id is stamped with the time of the cycle and has, at each
    level, one record per raw record in the order of the source, named
    after it and pointing to its parents: a campaign to none, an ad set to
    its campaign, an ad to its campaign and its ad set. *)
Theorem collect_success (API_KEY x_api_key : string) (source : Source)
    (now : datetime) (db db' : Store) (response : CollectResponse) :
  collect API_KEY x_api_key source now db = (Ok response, db') ->
  exists snapshot campaigns adsets ads,
    db' = document_set (strftime_doc_id now) snapshot db /\
    get_meta_insights source "campaign" = Ok campaigns /\
    get_meta_insights source "adset" = Ok adsets /\
    get_meta_insights source "ad" = Ok ads /\
    response = {| status := "success";
                  doc_id := strftime_doc_id now;
                  counts := (List.length campaigns, List.length adsets,
                             List.length ads) |} /\
    ts snapshot = isoformat now /\
    date snapshot = strftime_date now /\
    (List.length (campaign snapshot) = List.length campaigns /\
     List.length (adset snapshot) = List.length adsets /\
     List.length (ad snapshot) = List.length ads) /\
    (map Entry.name (campaign snapshot)
     = map (fun item => get (Raw.campaign_name item) "") campaigns /\
     map Entry.name (adset snapshot)
     = map (fun item => get (Raw.adset_name item) "") adsets /\
     map Entry.name (ad snapshot)
     = map (fun item => get (Raw.ad_name item) "") ads) /\
    (map Entry.campaign_id (campaign snapshot) = map (fun _ => None) campaigns /\
     map Entry.campaign_id (adset snapshot) = map Raw.campaign_id adsets /\
     map Entry.adset_id (adset snapshot) = map (fun _ => None) adsets /\
     map Entry.campaign_id (ad snapshot) = map Raw.campaign_id ads /\
     map Entry.adset_id (ad snapshot) = map Raw.adset_id ads).
Proof.
  intros H. apply collect_ok in H.
  destruct (collect_try_store source now) as [[e He]|Hs].
  { rewrite He in H. discriminate. }
  destruct Hs as (response' & snapshot & campaigns & adsets & ads & Htry
                  & Hc & Ha & Hd & Hcs & Hss & Hds & Hts & Hdate & Hresp).
  rewrite Htry in H. injection H as <- <-.
  exists snapshot, campaigns, adsets, ads.
  repeat (split; [assumption || reflexivity|]).
  split; [|split].
  - repeat split.
    + apply for_each_ok, Forall2_length in Hcs. now symmetry.
    + apply for_each_ok, Forall2_length in Hss. now symmetry.
    + apply for_each_ok, Forall2_length in Hds. now symmetry.
  - repeat split.
    + apply (entries_map campaign_entry); [|assumption].
      intros i e He. apply (campaign_entry_fields i e He).
    + apply (entries_map adset_entry); [|assumption].
      intros i e He. apply (adset_entry_fields i e He).
    + apply (entries_map ad_entry); [|assumption].
      intros i e He. apply (ad_entry_fields i e He).
  - repeat split.
    + apply (entries_map campaign_entry); [|assumption].
      intros i e He. apply (campaign_entry_fields i e He).
    + apply (entries_map adset_entry); [|assumption].
      intros i e He. apply (adset_entry_fields i e He).
    + apply (entries_map adset_entry); [|assumption].
      intros i e He. apply (adset_entry_fields i e He).
    + apply (entries_map ad_entry); [|assumption].
      intros i e He. apply (ad_entry_fields i e He).
    + apply (entries_map ad_entry); [|assumption].
      intros i e He. apply (ad_entry_fields i e He).
Qed.

Lemma collect_success_witness :
  collect "secret" "secret" (campaigns_only second_fetch) half_past_ten
    store_after_first
  = (Ok three_campaigns_collected, store_after_second) /\
  exists snapshot campaigns adsets ads,
    store_after_second
    = document_set (strftime_doc_id half_past_ten) snapshot store_after_first /\
    get_meta_insights (campaigns_only second_fetch) "campaign" = Ok campaigns /\
    get_meta_insights (campaigns_only second_fetch) "adset" = Ok adsets /\
    get_meta_insights (campaigns_only second_fetch) "ad" = Ok ads /\
    three_campaigns_collected
    = {| status := "success";
         doc_id := strftime_doc_id half_past_ten;
         counts := (List.length campaigns, List.length adsets,
                    List.length ads) |} /\
    ts snapshot = isoformat half_past_ten /\
    date snapshot = strftime_date half_past_ten /\
    (List.length (campaign snapshot) = List.length campaigns /\
     List.length (adset snapshot) = List.length adsets /\
     List.length (ad snapshot) = List.length ads) /\
    (map Entry.name (campaign snapshot)
     = map (fun item => get (Raw.campaign_name item) "") campaigns /\
     map Entry.name (adset snapshot)
     = map (fun item => get (Raw.adset_name item) "") adsets /\
     map Entry.name (ad snapshot)
     = map (fun item => get (Raw.ad_name item) "") ads) /\
    (map Entry.campaign_id (campaign snapshot) = map (fun _ => None) campaigns /\
     map Entry.campaign_id (adset snapshot) = map Raw.campaign_id adsets /\
     map Entry.adset_id (adset snapshot) = map (fun _ => None) adsets /\
     map Entry.campaign_id (ad snapshot) = map Raw.campaign_id ads /\
     map Entry.adset_id (ad snapshot) = map Raw.adset_id ads).
Proof.
  assert (H : collect "secret" "secret" (campaigns_only second_fetch)
                half_past_ten store_after_first
              = (Ok three_campaigns_collected, store_after_second))
    by (vm_compute; reflexivity).
  split; [exact H|].
  exact (collect_success "secret" "secret" (campaigns_only second_fetch)
           half_past_ten store_after_first store_after_second
           three_campaigns_collected H).
Defined.

(** ** The documents of the store *)

Lemma document_set_twice (doc_id : string) (s1 s2 : Snapshot) (db : Store) :
  document_set doc_id s2 (document_set doc_id s1 db) = document_set doc_id s2 db.
Proof.
  induction db as [|[k v] db IH]; simpl.
  - now rewrite String.eqb_refl.
  - destruct (String.eqb k doc_id) eqn:Hk; simpl; rewrite Hk;
      [reflexivity | now rewrite IH].
Qed.

Lemma document_set_other (doc_id : string) (snapshot : Snapshot) (db : Store)
    (k : string) (s : Snapshot) :
  k <> doc_id ->
  (In (k, s) (document_set doc_id snapshot db) <-> In (k, s) db).
Proof.
  intros Hk. induction db as [|[k0 v0] db IH]; simpl.
  - split; [intros [H|[]]; congruence | intros []].
  - destruct (String.eqb k0 doc_id) eqn:H0; simpl.
    + apply String.eqb_eq in H0. subst k0.
      split; (intros [H|H]; [congruence | now right]).
    + rewrite IH. reflexivity.
Qed.

Lemma document_set_keys (doc_id : string) (snapshot : Snapshot) (db : Store)
    (k : string) :
  In k (map fst (document_set doc_id snapshot db)) <->
  k = doc_id \/ In k (map fst db).
Proof.
  induction db as [|[k0 v0] db IH]; simpl.
  - intuition.
  - destruct (String.eqb k0 doc_id) eqn:H0; simpl.
    + apply String.eqb_eq in H0. subst k0. intuition.
    + rewrite IH. intuition.
Qed.

Lemma document_set_nodup (doc_id : string) (snapshot : Snapshot) (db : Store) :
  NoDup (map fst db) -> NoDup (map fst (document_set doc_id snapshot db)).
Proof.
  induction db as [|[k0 v0] db IH]; simpl; intros Hnd.
  - constructor; [intros [] | constructor].
  - inversion Hnd as [|? ? Hnotin Hnd']; subst.
    destruct (String.eqb k0 doc_id) eqn:H0; simpl.
    + constructor; assumption.
    + constructor; [|auto]. rewrite document_set_keys.
      apply String.eqb_neq in H0. intuition.
Qed.

Lemma document_set_present (doc_id : string) (snapshot : Snapshot)
    (db : Store) :
  In (doc_id, snapshot) (document_set doc_id snapshot db).
Proof.
  induction db as [|[k0 v0] db IH]; simpl; [auto|].
  destruct (String.eqb k0 doc_id) eqn:H0; simpl; [|auto].
  apply String.eqb_eq in H0. subst k0. auto.
Qed.

Lemma document_set_length (doc_id : string) (snapshot : Snapshot)
    (db : Store) :
  (List.length db <= List.length (document_set doc_id snapshot db)
   <= S (List.length db))%nat.
Proof.
  induction db as [|[k0 v0] db IH]; simpl; [lia|].
  destruct (String.eqb k0 doc_id); simpl; lia.
Qed.

Lemma strftime_doc_id_minute (now1 now2 : datetime) :
  minute_of now1 = minute_of now2 ->
  strftime_doc_id now1 = strftime_doc_id now2.
Proof.
  unfold minute_of, strftime_doc_id. intros H.
  injection H as -> -> -> -> ->. reflexivity.
Qed.

(** X9. A cycle that succeeds in the minute of an earlier cycle overwrites
    what that one stored: answer and store are the ones it would have
    given had the earlier cycle not run at all. *)
Theorem same_minute_overwrites (API_KEY x_api_key : string)
    (source1 source2 : Source) (now1 now2 : datetime) (db db2 : Store)
    (response : CollectResponse) :
  minute_of now1 = minute_of now2 ->
  collect API_KEY API_KEY source2 now2 db = (Ok response, db2) ->
  collect API_KEY API_KEY source2 now2
    (snd (collect API_KEY x_api_key source1 now1 db))
  = (Ok response, db2).
Proof.
  intros Hmin H2. apply strftime_doc_id_minute in Hmin.
  apply collect_ok in H2.
  destruct (collect_try_store source2 now2) as [[e He]|Hs].
  { rewrite He in H2. discriminate. }
  destruct Hs as (response' & snapshot & ? & ? & ? & Htry & _).
  rewrite Htry in H2. injection H2 as <- <-.
  unfold collect at 1. rewrite verify_api_key_same, Htry. f_equal.
  destruct (collect_store_cases API_KEY x_api_key source1 now1 db)
    as [-> | [s1 ->]]; [reflexivity|].
  rewrite Hmin. apply document_set_twice.
Qed.

(** X10. Whatever its outcome, a cycle neither removes nor changes a
    document of another minute, adds at most one document, and keeps the
    document ids pairwise different. *)
Theorem collect_keeps_other_documents (API_KEY x_api_key : string)
    (source : Source) (now : datetime) (db : Store) :
  (forall k s, k <> strftime_doc_id now ->
     (In (k, s) (snd (collect API_KEY x_api_key source now db))
      <-> In (k, s) db)) /\
  (List.length db
   <= List.length (snd (collect API_KEY x_api_key source now db))
   <= S (List.length db))%nat /\
  (NoDup (map fst db) ->
   NoDup (map fst (snd (collect API_KEY x_api_key source now db)))).
Proof.
  destruct (collect_store_cases API_KEY x_api_key source now db)
    as [-> | [s ->]].
  - split; [reflexivity|]. split; [lia | auto].
  - split; [|split].
    + intros k s' Hk. now apply document_set_other.
    + apply document_set_length.
    + apply document_set_nodup.
Qed.

Lemma same_minute_overwrites_witness :
  (minute_of ten_o_clock = minute_of shortly_after_ten /\
   collect "secret" "secret" (campaigns_only second_fetch) shortly_after_ten []
   = (Ok three_campaigns_at_ten, store_of_second_only)) /\
  collect "secret" "secret" (campaigns_only second_fetch) shortly_after_ten
    (snd (collect "secret" "secret" (campaigns_only first_fetch)
            ten_o_clock []))
  = (Ok three_campaigns_at_ten, store_of_second_only).
Proof.
  assert (H1 : minute_of ten_o_clock = minute_of shortly_after_ten)
    by reflexivity.
  assert (H2 : collect "secret" "secret" (campaigns_only second_fetch)
                 shortly_after_ten []
               = (Ok three_campaigns_at_ten, store_of_second_only))
    by (vm_compute; reflexivity).
  split; [exact (conj H1 H2)|].
  exact (same_minute_overwrites "secret" "secret" (campaigns_only first_fetch)
           (campaigns_only second_fetch) ten_o_clock shortly_after_ten []
           store_of_second_only three_campaigns_at_ten H1 H2).
Defined.

Lemma collect_keeps_other_documents_witness :
  ("20240501_1000" <> strftime_doc_id half_past_ten /\
   NoDup (map fst store_after_first)) /\
  (In ("20240501_1000", first_snapshot)
      (snd (collect "secret" "secret" (campaigns_only second_fetch)
              half_past_ten store_after_first))
   <-> In ("20240501_1000", first_snapshot) store_after_first) /\
  NoDup (map fst (snd (collect "secret" "secret" (campaigns_only second_fetch)
                         half_past_ten store_after_first))).
Proof.
  assert (H1 : "20240501_1000" <> strftime_doc_id half_past_ten)
    by (vm_compute; discriminate).
  assert (H2 : NoDup (map fst store_after_first)).
  { replace (map fst store_after_first) with ["20240501_1000"]
      by (vm_compute; reflexivity).
    constructor; [intros [] | constructor]. }
  split; [exact (conj H1 H2)|]. split.
  - exact (proj1 (collect_keeps_other_documents "secret" "secret"
                    (campaigns_only second_fetch) half_past_ten
                    store_after_first)
             "20240501_1000" first_snapshot H1).
  - exact (proj2 (proj2 (collect_keeps_other_documents "secret" "secret"
                           (campaigns_only second_fetch) half_past_ten
                           store_after_first)) H2).
Defined.

(** * Further properties of the delta engine *)

Lemma sub_self (x : Float.float) :
  is_finite x = true -> Float.sub x x = Float.zero.
Proof.
  destruct x as [[]|[]| |s m e]; try discriminate; try reflexivity.
  intros _. unfold Float.sub, SFsub. cbv zeta.
  rewrite Z.min_id. unfold shl_align. rewrite (Z.sub_diag e). cbn [fst].
  rewrite Z.sub_diag. reflexivity.
Qed.

Lemma intraday_item_made_from (previous_items : dict Entry.t) (k : key)
    (curr : Entry.t) (r : MetricItem.t) :
  intraday_item previous_items (k, curr) = Ok r ->
  MetricItem.id r = k /\
  MetricItem.name r = Entry.name curr /\
  MetricItem.campaign_id r = Entry.campaign_id curr /\
  MetricItem.adset_id r = Entry.adset_id curr.
Proof.
  unfold intraday_item.
  destruct (float_sub _ _) as [s|e]; cbn [bind]; [|discriminate].
  destruct (window_cpl _ _) as [c|e]; cbn [bind]; [|discriminate].
  intros H. injection H as <-. auto.
Qed.

(** The snapshots the delta engine works on: the index of the previous
    one is empty when there is none. *)
Lemma get_intraday_try_recent (level : string) (db : Store)
    (current : Snapshot) (rest : list Snapshot) :
  stream_recent 2 db = current :: rest ->
  get_intraday_try level db
  = for_each
      (intraday_item
         match hd_error rest with
         | Some p => index_by_id (level_records p level)
         | None => []
         end)
      (index_by_id (level_records current level)).
Proof. unfold get_intraday_try. intros ->. reflexivity. Qed.

(** What a record of the answer is, in terms of the two indexes. *)
Lemma answer_record (level : string) (db : Store) (current : Snapshot)
    (rest : list Snapshot) (result : list MetricItem.t) (r : MetricItem.t) :
  stream_recent 2 db = current :: rest ->
  get_intraday_try level db = Ok result ->
  In r result ->
  exists curr,
    dict_get (MetricItem.id r) (index_by_id (level_records current level))
    = Some curr /\
    In curr (level_records current level) /\
    made_from curr r /\
    MetricItem.spend_30m r
    = Float.sub (Entry.spend curr)
        (previous_spend
           match hd_error rest with
           | Some p => index_by_id (level_records p level)
           | None => []
           end (MetricItem.id r)) /\
    MetricItem.conv_30m r
    = Entry.conv curr
      - previous_conv
          match hd_error rest with
          | Some p => index_by_id (level_records p level)
          | None => []
          end (MetricItem.id r) /\
    window_cpl (MetricItem.spend_30m r) (MetricItem.conv_30m r)
    = Ok (MetricItem.cpl_30m r).
Proof.
  intros Hrecent Htry Hin.
  rewrite (get_intraday_try_recent level db current rest Hrecent) in Htry.
  apply for_each_ok in Htry.
  destruct (Forall2_in_r _ _ _ _ Htry Hin) as ([k curr] & Hk & Hr).
  pose proof (intraday_item_made_from _ _ _ _ Hr) as (Hid & Hn & Hci & Hai).
  apply intraday_item_ok in Hr.
  destruct Hr as (_ & Hs & Hc & Hl & Hsub & Hconv & Hw).
  match type of Hsub with
  | float_sub _ (fst (previous_of ?d _)) = _ =>
      destruct (previous_of_spec d k (Entry.spend curr)) as [Hps Hpc]
  end.
  pose proof (index_by_id_elements _ _ _ Hk) as [Hcur Hcid].
  exists curr. subst k.
  split; [apply dict_get_in; [apply index_by_id_nodup | assumption]|].
  split; [assumption|].
  split; [unfold made_from; repeat split; congruence|].
  split; [congruence|]. split; [congruence | assumption].
Qed.

(** X11. Every record of an answer is made from a record of the level's
    sequence in the newest snapshot, the one the index holds for its id:
    id, name, parents, spend, conversions and cost of the day are copied
    from it. *)
Theorem answer_copies_current (API_KEY level x_api_key : string) (db : Store)
    (current : Snapshot) (result : list MetricItem.t) (r : MetricItem.t) :
  get_intraday API_KEY level x_api_key db = Ok result ->
  hd_error (stream_recent 2 db) = Some current ->
  In r result ->
  exists curr,
    In curr (level_records current level) /\
    dict_get (MetricItem.id r) (index_by_id (level_records current level))
    = Some curr /\
    made_from curr r.
Proof.
  intros Hok Hhd Hin. apply get_intraday_ok in Hok.
  destruct (stream_recent 2 db) as [|c rest] eqn:Hrecent; [discriminate|].
  injection Hhd as ->.
  destruct (answer_record level db current rest result r Hrecent Hok Hin)
    as (curr & Hget & Hcur & Hmade & _).
  exists curr. auto.
Qed.

Lemma answer_copies_current_witness :
  (get_intraday "secret" "campaign" "secret" store_after_second
   = Ok [window_X; window_Y; window_Z] /\
   hd_error (stream_recent 2 store_after_second) = Some second_snapshot /\
   In window_Z [window_X; window_Y; window_Z]) /\
  exists curr,
    In curr (level_records second_snapshot "campaign") /\
    dict_get (MetricItem.id window_Z)
      (index_by_id (level_records second_snapshot "campaign"))
    = Some curr /\
    made_from curr window_Z.
Proof.
  assert (H1 : get_intraday "secret" "campaign" "secret" store_after_second
               = Ok [window_X; window_Y; window_Z])
    by (vm_compute; reflexivity).
  assert (H2 : hd_error (stream_recent 2 store_after_second)
               = Some second_snapshot) by (vm_compute; reflexivity).
  assert (H3 : In window_Z [window_X; window_Y; window_Z])
    by (right; right; left; reflexivity).
  split; [exact (conj H1 (conj H2 H3))|].
  exact (answer_copies_current "secret" "campaign" "secret"
           store_after_second second_snapshot _ window_Z H1 H2 H3).
Defined.

(** X12. An entity whose spend and conversions in the previous snapshot
    are those of the current one, the spend being finite, has an empty
    window: spend +0.0, 0 conversions, no cost. *)
Theorem unchanged_entity_has_empty_window (API_KEY level x_api_key : string)
    (db : Store) (current previous : Snapshot) (result : list MetricItem.t)
    (r : MetricItem.t) (prev : Entry.t) :
  get_intraday API_KEY level x_api_key db = Ok result ->
  stream_recent 2 db = [current; previous] ->
  In r result ->
  dict_get (MetricItem.id r) (index_by_id (level_records previous level))
  = Some prev ->
  Entry.spend prev = MetricItem.spend_today r ->
  Entry.conv prev = MetricItem.conv_today r ->
  is_finite (MetricItem.spend_today r) = true ->
  MetricItem.spend_30m r = Float.zero /\
  MetricItem.conv_30m r = 0 /\
  MetricItem.cpl_30m r = None.
Proof.
  intros Hok Hrecent Hin Hprev Hs Hc Hfin. apply get_intraday_ok in Hok.
  destruct (answer_record level db current [previous] result r Hrecent Hok Hin)
    as (curr & _ & _ & Hmade & Hs30 & Hc30 & Hw).
  cbn [hd_error] in Hs30, Hc30.
  unfold previous_spend in Hs30. unfold previous_conv in Hc30.
  rewrite Hprev in Hs30, Hc30.
  destruct Hmade as (_ & _ & _ & _ & Hst & Hct & _).
  rewrite Hs, Hst, sub_self in Hs30 by (rewrite <- Hst; assumption).
  rewrite Hc, Hct, Z.sub_diag in Hc30.
  rewrite Hs30, Hc30 in Hw. unfold window_cpl in Hw. cbn in Hw.
  split; [assumption|]. split; [assumption | congruence].
Qed.

(** X13. An entity the previous snapshot does not have, or any entity
    when there is no previous snapshot, has the whole day as its window:
    window spend and conversions are those of the day, and the window
    cost is the spend of the day over its conversions when these are
    positive and null otherwise. *)
Theorem new_entity_window_is_the_day (API_KEY level x_api_key : string)
    (db : Store) (current : Snapshot) (rest : list Snapshot)
    (result : list MetricItem.t) (r : MetricItem.t) :
  get_intraday API_KEY level x_api_key db = Ok result ->
  stream_recent 2 db = current :: rest ->
  In r result ->
  (forall previous, hd_error rest = Some previous ->
     ~ In (MetricItem.id r) (map Entry.id (level_records previous level))) ->
  MetricItem.spend_30m r = MetricItem.spend_today r /\
  MetricItem.conv_30m r = MetricItem.conv_today r /\
  window_cpl (MetricItem.spend_today r) (MetricItem.conv_today r)
  = Ok (MetricItem.cpl_30m r).
Proof.
  intros Hok Hrecent Hin Hnew. apply get_intraday_ok in Hok.
  destruct (answer_record level db current rest result r Hrecent Hok Hin)
    as (curr & _ & _ & Hmade & Hs30 & Hc30 & Hw).
  destruct Hmade as (_ & _ & _ & _ & Hst & Hct & _).
  assert (Hnone : dict_get (MetricItem.id r)
                    match hd_error rest with
                    | Some p => index_by_id (level_records p level)
                    | None => []
                    end = None).
  { destruct (hd_error rest) as [p|]; [|reflexivity].
    apply dict_get_none. rewrite index_by_id_keys. now apply Hnew. }
  unfold previous_spend in Hs30. unfold previous_conv in Hc30.
  rewrite Hnone in Hs30, Hc30.
  rewrite sub_zero in Hs30. rewrite Z.sub_0_r in Hc30.
  rewrite Hs30, Hc30, <- Hst, <- Hct in Hw.
  split; [congruence|]. split; [congruence | exact Hw].
Qed.

Lemma unchanged_entity_has_empty_window_witness :
  (get_intraday "secret" "campaign" "secret" store_after_third
   = Ok [idle_X; idle_Y; idle_Z] /\
   stream_recent 2 store_after_third = [third_snapshot; second_snapshot] /\
   In idle_X [idle_X; idle_Y; idle_Z] /\
   dict_get (MetricItem.id idle_X)
     (index_by_id (level_records second_snapshot "campaign"))
   = Some entry_X /\
   Entry.spend entry_X = MetricItem.spend_today idle_X /\
   Entry.conv entry_X = MetricItem.conv_today idle_X /\
   is_finite (MetricItem.spend_today idle_X) = true) /\
  MetricItem.spend_30m idle_X = Float.zero /\
  MetricItem.conv_30m idle_X = 0 /\
  MetricItem.cpl_30m idle_X = None.
Proof.
  assert (H1 : get_intraday "secret" "campaign" "secret" store_after_third
               = Ok [idle_X; idle_Y; idle_Z]) by (vm_compute; reflexivity).
  assert (H2 : stream_recent 2 store_after_third
               = [third_snapshot; second_snapshot])
    by (vm_compute; reflexivity).
  assert (H3 : In idle_X [idle_X; idle_Y; idle_Z]) by (left; reflexivity).
  assert (H4 : dict_get (MetricItem.id idle_X)
                 (index_by_id (level_records second_snapshot "campaign"))
               = Some entry_X) by (vm_compute; reflexivity).
  assert (H5 : Entry.spend entry_X = MetricItem.spend_today idle_X)
    by reflexivity.
  assert (H6 : Entry.conv entry_X = MetricItem.conv_today idle_X)
    by reflexivity.
  assert (H7 : is_finite (MetricItem.spend_today idle_X) = true)
    by (vm_compute; reflexivity).
  split; [exact (conj H1 (conj H2 (conj H3 (conj H4 (conj H5 (conj H6 H7))))))|].
  exact (unchanged_entity_has_empty_window "secret" "campaign" "secret"
           store_after_third third_snapshot second_snapshot _ idle_X
           entry_X H1 H2 H3 H4 H5 H6 H7).
Defined.

Lemma new_entity_window_is_the_day_witness :
  (get_intraday "secret" "campaign" "secret" store_after_second
   = Ok [window_X; window_Y; window_Z] /\
   stream_recent 2 store_after_second = second_snapshot :: [first_snapshot] /\
   In window_Y [window_X; window_Y; window_Z] /\
   (forall previous, hd_error [first_snapshot] = Some previous ->
      ~ In (MetricItem.id window_Y)
           (map Entry.id (level_records previous "campaign")))) /\
  MetricItem.spend_30m window_Y = MetricItem.spend_today window_Y /\
  MetricItem.conv_30m window_Y = MetricItem.conv_today window_Y /\
  window_cpl (MetricItem.spend_today window_Y) (MetricItem.conv_today window_Y)
  = Ok (MetricItem.cpl_30m window_Y).
Proof.
  assert (H1 : get_intraday "secret" "campaign" "secret" store_after_second
               = Ok [window_X; window_Y; window_Z])
    by (vm_compute; reflexivity).
  assert (H2 : stream_recent 2 store_after_second
               = second_snapshot :: [first_snapshot])
    by (vm_compute; reflexivity).
  assert (H3 : In window_Y [window_X; window_Y; window_Z])
    by (right; left; reflexivity).
  assert (H4 : forall previous, hd_error [first_snapshot] = Some previous ->
               ~ In (MetricItem.id window_Y)
                    (map Entry.id (level_records previous "campaign"))).
  { intros previous Hp. injection Hp as <-.
    replace (map Entry.id (level_records first_snapshot "campaign"))
      with [Some "X"; Some "Z"; Some "W"] by (vm_compute; reflexivity).
    simpl. intros [H|[H|[H|[]]]]; discriminate H. }
  split; [exact (conj H1 (conj H2 (conj H3 H4)))|].
  exact (new_entity_window_is_the_day "secret" "campaign" "secret"
           store_after_second second_snapshot [first_snapshot] _ window_Y
           H1 H2 H3 H4).
Defined.

(** ** The order of the answer *)

Lemma dict_set_keys {V : Type} (k : key) (v : V) (d : dict V) :
  map fst (dict_set k v d)
  = if existsb (fun k' => key_eqb k' k) (map fst d)
    then map fst d
    else (map fst d ++ [k])%list.
Proof.
  induction d as [|[k0 v0] d IH]; simpl; [reflexivity|].
  destruct (key_eqb k0 k) eqn:Hk; simpl; [reflexivity|].
  rewrite IH. destruct (existsb _ _); reflexivity.
Qed.

Lemma index_from_order (records : list Entry.t) : forall d : dict Entry.t,
  map fst (fold_left index_add records d)
  = (map fst d ++ first_occurrences (map fst d) (map Entry.id records))%list.
Proof.
  induction records as [|e records IH]; intros d; simpl.
  - now rewrite app_nil_r.
  - rewrite IH. unfold index_add at 1 2. rewrite dict_set_keys.
    destruct (existsb _ (map fst d)); [reflexivity|].
    now rewrite <- app_assoc.
Qed.

Lemma first_occurrences_length (ids : list key) : forall seen,
  (List.length (first_occurrences seen ids) <= List.length ids)%nat.
Proof.
  induction ids as [|k ids IH]; intros seen; simpl; [lia|].
  destruct (existsb _ seen); simpl.
  - specialize (IH seen). lia.
  - specialize (IH (seen ++ [k])%list). lia.
Qed.

Lemma first_occurrences_nodup (ids : list key) : forall seen,
  NoDup ids ->
  (forall k, In k ids -> ~ In k seen) ->
  first_occurrences seen ids = ids.
Proof.
  induction ids as [|k ids IH]; intros seen Hnd Hseen; simpl; [reflexivity|].
  inversion Hnd as [|? ? Hnotin Hnd']; subst.
  destruct (existsb (fun k' => key_eqb k' k) seen) eqn:He.
  - exfalso. apply existsb_exists in He. destruct He as (k' & Hk' & Heq).
    apply key_eqb_eq in Heq. subst k'. apply (Hseen k); simpl; auto.
  - f_equal. apply IH; [assumption|].
    intros k' Hk' Hin. apply in_app_or in Hin. destruct Hin as [Hin|[<-|[]]].
    + apply (Hseen k'); simpl; auto.
    + contradiction.
Qed.

(** X14. The records of an answer come in the order in which their ids
    first occur in the level's sequence of the newest snapshot, so there
    are at most as many as the sequence has records; when the ids of the
    sequence are pairwise different, the answer has one record per record
    of the sequence, in its order. *)
Theorem answer_order (API_KEY level x_api_key : string) (db : Store)
    (current : Snapshot) (result : list MetricItem.t) :
  get_intraday API_KEY level x_api_key db = Ok result ->
  hd_error (stream_recent 2 db) = Some current ->
  map MetricItem.id result
  = first_occurrences [] (map Entry.id (level_records current level)) /\
  (List.length result <= List.length (level_records current level))%nat /\
  (NoDup (map Entry.id (level_records current level)) ->
   map MetricItem.id result = map Entry.id (level_records current level)).
Proof.
  intros Hok Hhd. apply get_intraday_ok in Hok.
  destruct (stream_recent 2 db) as [|c rest] eqn:Hrecent; [discriminate|].
  injection Hhd as ->.
  rewrite (get_intraday_try_recent level db current rest Hrecent) in Hok.
  apply for_each_ok in Hok.
  assert (Hids : map MetricItem.id result
                 = first_occurrences []
                     (map Entry.id (level_records current level))).
  { transitivity (map fst (index_by_id (level_records current level))).
    - symmetry. eapply Forall2_map; [|exact Hok].
      intros [k curr] r Hr. apply intraday_item_ok in Hr. symmetry. apply Hr.
    - unfold index_by_id. rewrite index_from_order. reflexivity. }
  split; [exact Hids|]. split.
  - rewrite <- (length_map MetricItem.id), Hids.
    rewrite <- (length_map Entry.id (level_records current level)).
    apply first_occurrences_length.
  - intros Hnd. rewrite Hids.
    apply first_occurrences_nodup; [assumption | intros k _ []].
Qed.

Lemma answer_order_witness :
  (get_intraday "secret" "campaign" "secret" store_after_second
   = Ok [window_X; window_Y; window_Z] /\
   hd_error (stream_recent 2 store_after_second) = Some second_snapshot /\
   NoDup (map Entry.id (level_records second_snapshot "campaign"))) /\
  map MetricItem.id [window_X; window_Y; window_Z]
  = first_occurrences [] (map Entry.id (level_records second_snapshot "campaign")) /\
  (List.length [window_X; window_Y; window_Z]
   <= List.length (level_records second_snapshot "campaign"))%nat /\
  map MetricItem.id [window_X; window_Y; window_Z]
  = map Entry.id (level_records second_snapshot "campaign").
Proof.
  assert (H1 : get_intraday "secret" "campaign" "secret" store_after_second
               = Ok [window_X; window_Y; window_Z])
    by (vm_compute; reflexivity).
  assert (H2 : hd_error (stream_recent 2 store_after_second)
               = Some second_snapshot) by (vm_compute; reflexivity).
  assert (H3 : NoDup (map Entry.id (level_records second_snapshot "campaign"))).
  { replace (map Entry.id (level_records second_snapshot "campaign"))
      with [Some "X"; Some "Y"; Some "Z"] by (vm_compute; reflexivity).
    repeat constructor; simpl; intuition discriminate. }
  pose proof (answer_order "secret" "campaign" "secret" store_after_second
                second_snapshot _ H1 H2) as (Ha & Hb & Hc).
  split; [exact (conj H1 (conj H2 H3))|].
  split; [exact Ha|]. split; [exact Hb | exact (Hc H3)].
Defined.

(** ** The query for the newest snapshots *)

Lemma insert_desc_in (a x : string * Snapshot) (l : Store) :
  In x (insert_desc a l) <-> x = a \/ In x l.
Proof.
  induction l as [|b l IH]; simpl.
  - intuition.
  - destruct (before a b); simpl; [intuition|].
    rewrite IH. intuition.
Qed.

Lemma order_by_ts_desc_in (db : Store) (x : string * Snapshot) :
  In x (order_by_ts_desc db) <-> In x db.
Proof.
  unfold order_by_ts_desc. induction db as [|a db IH]; simpl; [reflexivity|].
  rewrite insert_desc_in, IH. intuition.
Qed.

Lemma stream_recent_in (n : nat) (db : Store) (s : Snapshot) :
  In s (stream_recent n db) -> exists k, In (k, s) db.
Proof.
  unfold stream_recent. intros H. apply in_map_iff in H.
  destruct H as ([k s'] & Hs & Hin). simpl in Hs. subst s'.
  exists k. apply order_by_ts_desc_in.
  rewrite <- (firstn_skipn n (order_by_ts_desc db)).
  apply in_or_app. now left.
Qed.

(** X15. On a store whose integers are 64-bit, however many snapshots it
    holds, the delta engine does not fail for a known level: it answers
    with a list. *)
Theorem get_intraday_succeeds (API_KEY level : string) (db : Store) :
  In level levels ->
  (forall doc, In doc db -> firestore_integers (level_records (snd doc) level)) ->
  exists result, get_intraday API_KEY level API_KEY db = Ok result.
Proof.
  intros Hl Hint. rewrite get_intraday_authorised by assumption.
  destruct (stream_recent 2 db) as [|current rest] eqn:Hrecent.
  - unfold get_intraday_try. rewrite Hrecent. eauto.
  - rewrite (get_intraday_try_recent level db current rest Hrecent).
    assert (Hfrom : forall s, In s (current :: rest) ->
                      firestore_integers (level_records s level)).
    { intros s Hs. rewrite <- Hrecent in Hs. apply stream_recent_in in Hs.
      destruct Hs as [k Hk]. apply (Hint (k, s) Hk). }
    destruct (intraday_loop (level_records current level)
                match hd_error rest with
                | Some p => index_by_id (level_records p level)
                | None => []
                end) as (result & -> & _).
    + apply Hfrom. left. reflexivity.
    + intros k prev. destruct rest as [|p rest]; cbn [hd_error].
      * discriminate.
      * apply index_by_id_int64. apply Hfrom. right. left. reflexivity.
    + eauto.
Qed.

Lemma get_intraday_succeeds_witness :
  (In "campaign" levels /\
   forall doc, In doc store_after_third ->
               firestore_integers (level_records (snd doc) "campaign")) /\
  exists result,
    get_intraday "secret" "campaign" "secret" store_after_third = Ok result.
Proof.
  assert (H1 : In "campaign" levels) by (simpl; auto).
  assert (H2 : forall doc, In doc store_after_third ->
               firestore_integers (level_records (snd doc) "campaign")).
  { assert (Hs : store_after_third
                 = [("20240501_1000", first_snapshot);
                    ("20240501_1030", second_snapshot);
                    ("20240501_1100", third_snapshot)])
      by (vm_compute; reflexivity).
    rewrite Hs. intros doc [<-|[<-|[<-|[]]]];
      apply firestore_integers_convs; cbn [snd].
    - replace (map Entry.conv (level_records first_snapshot "campaign"))
        with [3; 4; 0] by (vm_compute; reflexivity).
      repeat constructor; unfold int64; lia.
    - replace (map Entry.conv (level_records second_snapshot "campaign"))
        with [5; 0; 4] by (vm_compute; reflexivity).
      repeat constructor; unfold int64; lia.
    - replace (map Entry.conv (level_records third_snapshot "campaign"))
        with [5; 0; 4] by (vm_compute; reflexivity).
      repeat constructor; unfold int64; lia. }
  split; [exact (conj H1 H2)|].
  exact (get_intraday_succeeds "secret" "campaign" store_after_third H1 H2).
Defined.

Lemma insert_newest (a : string * Snapshot) (l : Store) :
  (forall x, In x l -> older_than (ts (snd a)) x) ->
  insert_desc a l = a :: l.
Proof.
  destruct l as [|b l]; [reflexivity|]. intros H. simpl.
  specialize (H b (or_introl eq_refl)). unfold older_than in H.
  unfold before. rewrite String.compare_antisym, H. reflexivity.
Qed.

Lemma insert_older (a x : string * Snapshot) (l : Store) :
  older_than (ts (snd a)) x ->
  insert_desc x (a :: l) = a :: insert_desc x l.
Proof.
  unfold older_than. intros H. simpl. unfold before. now rewrite H.
Qed.

Lemma order_newest_first (l1 l2 : Store) (a : string * Snapshot) :
  (forall x, In x (l1 ++ l2)%list -> older_than (ts (snd a)) x) ->
  order_by_ts_desc (l1 ++ a :: l2)%list
  = a :: order_by_ts_desc (l1 ++ l2)%list.
Proof.
  unfold order_by_ts_desc. induction l1 as [|x l1 IH]; simpl; intros H.
  - apply insert_newest. intros x Hx.
    apply (order_by_ts_desc_in l2 x) in Hx. auto.
  - rewrite IH by (intros y Hy; apply H; now right).
    apply insert_older. apply H. now left.
Qed.

Lemma document_set_split (doc_id : string) (snapshot : Snapshot) (db : Store) :
  exists l1 l2,
    document_set doc_id snapshot db = (l1 ++ (doc_id, snapshot) :: l2)%list /\
    (forall x, In x (l1 ++ l2)%list -> In x db) /\
    (~ In doc_id (map fst db) -> l1 = db /\ l2 = []).
Proof.
  induction db as [|[k v] db IH]; simpl.
  - exists [], []. repeat split; auto.
  - destruct (String.eqb k doc_id) eqn:Hk.
    + apply String.eqb_eq in Hk. subst k. exists [], db.
      split; [reflexivity|]. split; [simpl; auto|]. intros H. exfalso. auto.
    + destruct IH as (l1 & l2 & Heq & Hin & Hnew).
      exists ((k, v) :: l1), l2. rewrite Heq.
      split; [reflexivity|]. split.
      * simpl. intros x [Hx|Hx]; auto.
      * intros H. destruct Hnew as [-> ->]; auto.
Qed.

(** X16. When a cycle succeeds at a time whose stamp is greater than the
    stamp of every stored snapshot, the snapshot it writes is the one the
    delta engine takes as current from then on; when the minute is a new
    one, the snapshot that was the newest becomes the previous one. *)
Theorem collected_snapshot_is_current (API_KEY x_api_key : string)
    (source : Source) (now : datetime) (db db' : Store)
    (response : CollectResponse) :
  collect API_KEY x_api_key source now db = (Ok response, db') ->
  (forall doc, In doc db -> older_than (isoformat now) doc) ->
  exists snapshot,
    In (doc_id response, snapshot) db' /\
    ts snapshot = isoformat now /\
    hd_error (stream_recent 2 db') = Some snapshot /\
    (~ In (doc_id response) (map fst db) ->
     stream_recent 2 db' = snapshot :: stream_recent 1 db).
Proof.
  intros Hok Hold.
  apply collect_ok in Hok.
  destruct (collect_try_store source now) as [[e He]|Hs].
  { rewrite He in Hok. discriminate. }
  destruct Hs as (response' & snapshot & campaigns & adsets & ads & Htry
                  & _ & _ & _ & _ & _ & _ & Hts & _ & Hresp).
  rewrite Htry in Hok. injection Hok as <- <-. subst response'.
  cbn [doc_id]. exists snapshot.
  split; [apply document_set_present|]. split; [assumption|].
  destruct (document_set_split (strftime_doc_id now) snapshot db)
    as (l1 & l2 & Heq & Hin & Hnew).
  assert (Hsort : order_by_ts_desc (document_set (strftime_doc_id now) snapshot db)
                  = (strftime_doc_id now, snapshot)
                      :: order_by_ts_desc (l1 ++ l2)%list).
  { rewrite Heq. apply order_newest_first.
    intros x Hx. cbn [snd]. rewrite Hts. auto. }
  unfold stream_recent. rewrite Hsort. split; [reflexivity|].
  intros Hfresh. destruct (Hnew Hfresh) as [-> ->].
  rewrite app_nil_r. reflexivity.
Qed.

Lemma collected_snapshot_is_current_witness :
  (collect "secret" "secret" (campaigns_only second_fetch) half_past_ten
     store_after_first
   = (Ok three_campaigns_collected, store_after_second) /\
   (forall doc, In doc store_after_first ->
                older_than (isoformat half_past_ten) doc)) /\
  exists snapshot,
    In (doc_id three_campaigns_collected, snapshot) store_after_second /\
    ts snapshot = isoformat half_past_ten /\
    hd_error (stream_recent 2 store_after_second) = Some snapshot /\
    (~ In (doc_id three_campaigns_collected) (map fst store_after_first) ->
     stream_recent 2 store_after_second
     = snapshot :: stream_recent 1 store_after_first).
Proof.
  assert (H1 : collect "secret" "secret" (campaigns_only second_fetch)
                 half_past_ten store_after_first
               = (Ok three_campaigns_collected, store_after_second))
    by (vm_compute; reflexivity).
  assert (H2 : forall doc, In doc store_after_first ->
               older_than (isoformat half_past_ten) doc).
  { assert (Hs : store_after_first = [("20240501_1000", first_snapshot)])
      by (vm_compute; reflexivity).
    rewrite Hs. intros doc [<-|[]]. vm_compute. reflexivity. }
  split; [exact (conj H1 H2)|].
  exact (collected_snapshot_is_current "secret" "secret"
           (campaigns_only second_fetch) half_past_ten store_after_first
           store_after_second three_campaigns_collected H1 H2).
Defined.

(** * Time stamps and document ids *)

Section Strings.

Lemma ascii_compare_refl (c : ascii) : Ascii.compare c c = Eq.
Proof. unfold Ascii.compare. apply N.compare_refl. Qed.

Lemma append_assoc (s t u : string) : ((s ++ t) ++ u = s ++ (t ++ u))%string.
Proof. induction s as [|c s IH]; simpl; [reflexivity | now rewrite IH]. Qed.

Lemma compare_append_same (p s t : string) :
  String.compare (p ++ s) (p ++ t) = String.compare s t.
Proof.
  induction p as [|c p IH]; simpl; [reflexivity|].
  now rewrite ascii_compare_refl.
Qed.

Lemma compare_append_lt (x : string) : forall (y s t : string),
  String.length x = String.length y ->
  String.compare x y = Lt ->
  String.compare (x ++ s) (y ++ t) = Lt.
Proof.
  induction x as [|c x IH]; intros [|d y] s t Hlen Hlt; simpl in *;
    try discriminate.
  destruct (Ascii.compare c d); try assumption.
  apply IH; [congruence | assumption].
Qed.

Lemma zfill_append (width : nat) : forall (n : Z) (acc : string),
  zfill width n acc = (zfill width n "" ++ acc)%string.
Proof.
  induction width as [|w IH]; intros n acc; simpl; [reflexivity|].
  rewrite (IH _ (String _ acc)), (IH _ (String _ "")).
  now rewrite append_assoc.
Qed.

Lemma length_append (s t : string) :
  String.length (s ++ t) = (String.length s + String.length t)%nat.
Proof. induction s as [|c s IH]; simpl; [reflexivity | now rewrite IH]. Qed.

Lemma zfill_length (width : nat) : forall n : Z,
  String.length (zfill width n "") = width.
Proof.
  induction width as [|w IH]; intros n; simpl; [reflexivity|].
  rewrite zfill_append, length_append, IH. simpl. lia.
Qed.

Lemma digit_compare (a b : Z) :
  0 <= a -> a < b -> b < 10 ->
  Ascii.compare (ascii_of_nat (48 + Z.to_nat a))
                (ascii_of_nat (48 + Z.to_nat b)) = Lt.
Proof.
  intros H0 Hab Hb.
  assert (Ha' : a = 0 \/ a = 1 \/ a = 2 \/ a = 3 \/ a = 4 \/ a = 5 \/
                a = 6 \/ a = 7 \/ a = 8 \/ a = 9) by lia.
  assert (Hb' : b = 0 \/ b = 1 \/ b = 2 \/ b = 3 \/ b = 4 \/ b = 5 \/
                b = 6 \/ b = 7 \/ b = 8 \/ b = 9) by lia.
  repeat destruct Ha' as [Ha'|Ha']; subst a;
    repeat destruct Hb' as [Hb'|Hb']; subst b;
    try lia; reflexivity.
Qed.

(** Numbers of the same width are ordered as their digits are. *)
Lemma zfill_lt (width : nat) : forall a b : Z,
  0 <= a -> a < b -> b < 10 ^ Z.of_nat width ->
  String.compare (zfill width a "") (zfill width b "") = Lt.
Proof.
  induction width as [|w IH]; intros a b H0 Hab Hb.
  - simpl in Hb. lia.
  - rewrite Nat2Z.inj_succ, Z.pow_succ_r in Hb by lia.
    cbn [zfill]. rewrite (zfill_append w (a / 10)), (zfill_append w (b / 10)).
    assert (Hdiv : a / 10 < b / 10 \/ (a / 10 = b / 10 /\ a mod 10 < b mod 10))
      by (Z.div_mod_to_equations; lia).
    assert (Hbounds : 0 <= a / 10 /\ b / 10 < 10 ^ Z.of_nat w /\
                      0 <= a mod 10 /\ b mod 10 < 10)
      by (Z.div_mod_to_equations; lia).
    destruct Hdiv as [Hlt|[Heq Hmod]].
    + apply compare_append_lt; [now rewrite !zfill_length|].
      apply IH; lia.
    + rewrite Heq, compare_append_same. cbn [String.compare].
      rewrite digit_compare; [reflexivity| | |]; lia.
Qed.

Lemma zfill_compare (width : nat) (a b : Z) (s t : string) :
  0 <= a < 10 ^ Z.of_nat width ->
  0 <= b < 10 ^ Z.of_nat width ->
  String.compare (zfill width a "" ++ s) (zfill width b "" ++ t)
  = match a ?= b with
    | Eq => String.compare s t
    | Lt => Lt
    | Gt => Gt
    end.
Proof.
  intros Ha Hb. destruct (Z.compare_spec a b) as [->|Hlt|Hgt].
  - apply compare_append_same.
  - apply compare_append_lt; [now rewrite !zfill_length|].
    apply zfill_lt; lia.
  - rewrite String.compare_antisym.
    rewrite compare_append_lt; [reflexivity | now rewrite !zfill_length|].
    apply zfill_lt; lia.
Qed.

End Strings.


Lemma string_compare_refl (s : string) : String.compare s s = Eq.
Proof.
  induction s as [|c s IH]; simpl; [reflexivity|].
  now rewrite ascii_compare_refl.
Qed.

Lemma zfill2_compare (a b : Z) (s t : string) :
  0 <= a < 100 -> 0 <= b < 100 ->
  String.compare (zfill 2 a "" ++ s) (zfill 2 b "" ++ t)
  = match a ?= b with
    | Eq => String.compare s t
    | Lt => Lt
    | Gt => Gt
    end.
Proof. intros Ha Hb. apply zfill_compare; assumption. Qed.

Lemma zfill4_compare (a b : Z) (s t : string) :
  0 <= a < 10000 -> 0 <= b < 10000 ->
  String.compare (zfill 4 a "" ++ s) (zfill 4 b "" ++ t)
  = match a ?= b with
    | Eq => String.compare s t
    | Lt => Lt
    | Gt => Gt
    end.
Proof. intros Ha Hb. apply zfill_compare; assumption. Qed.

Lemma zfill6_compare (a b : Z) (s t : string) :
  0 <= a < 1000000 -> 0 <= b < 1000000 ->
  String.compare (zfill 6 a "" ++ s) (zfill 6 b "" ++ t)
  = match a ?= b with
    | Eq => String.compare s t
    | Lt => Lt
    | Gt => Gt
    end.
Proof. intros Ha Hb. apply zfill_compare; assumption. Qed.

Lemma isoformat_shape (t : datetime) :
  isoformat t
  = zfill 4 (year t) "" ++ "-" ++ zfill 2 (month t) "" ++ "-" ++
    zfill 2 (day t) "" ++ "T" ++ zfill 2 (hour t) "" ++ ":" ++
    zfill 2 (minute t) "" ++ ":" ++ zfill 2 (second t) "" ++ stamp_tail t.
Proof.
  unfold isoformat, strftime_date, stamp_tail.
  rewrite (zfill_append 4 (year t) (_ ++ _)).
  rewrite (zfill_append 2 (month t) (_ ++ _)).
  rewrite (zfill_append 2 (hour t) (_ ++ _)).
  rewrite (zfill_append 2 (minute t) (_ ++ _)).
  rewrite (zfill_append 2 (second t) (_ ++ _)).
  rewrite !append_assoc. reflexivity.
Qed.

Lemma strftime_doc_id_shape (t : datetime) :
  strftime_doc_id t
  = zfill 4 (year t) "" ++ zfill 2 (month t) "" ++ zfill 2 (day t) "" ++
    "_" ++ zfill 2 (hour t) "" ++ zfill 2 (minute t) "" ++ "".
Proof.
  unfold strftime_doc_id.
  rewrite (zfill_append 4 (year t) (zfill _ _ _)).
  rewrite (zfill_append 2 (month t) (zfill _ _ _)).
  rewrite (zfill_append 2 (day t) (_ ++ _)).
  rewrite (zfill_append 2 (hour t) (zfill _ _ _)).
  rewrite (zfill_append 2 (minute t) "") at 1.
  reflexivity.
Qed.

Lemma stamp_tail_compare (a b : datetime) :
  0 <= microsecond a < 1000000 ->
  0 <= microsecond b < 1000000 ->
  String.compare (stamp_tail a) (stamp_tail b)
  = (microsecond a ?= microsecond b).
Proof.
  intros Ha Hb. unfold stamp_tail.
  destruct (Z.eqb_spec (microsecond a) 0) as [Ea|Ea];
    destruct (Z.eqb_spec (microsecond b) 0) as [Eb|Eb].
  - rewrite Ea, Eb. reflexivity.
  - rewrite Ea. symmetry. transitivity Lt; [|reflexivity].
    apply Z.compare_lt_iff. lia.
  - rewrite Eb. symmetry. transitivity Gt; [|reflexivity].
    apply Z.compare_gt_iff. lia.
  - rewrite !append_assoc, (compare_append_same "."), zfill6_compare
      by assumption.
    destruct (microsecond a ?= microsecond b); reflexivity.
Qed.

Ltac by_field :=
  match goal with
  | |- match ?x ?= ?y with _ => _ end = _ =>
      destruct (Z.compare_spec x y);
      [ | symmetry; apply Z.compare_lt_iff; unfold chronological; lia
        | symmetry; apply Z.compare_gt_iff; unfold chronological; lia ]
  end.

(** X17. The stamps order as time does: for two times of the calendar,
    comparing their ISO stamps as strings gives what comparing the times
    gives.  The query by descending [ts] is a query by descending
    time. *)
Theorem stamps_order_as_time (a b : datetime) :
  valid_datetime a -> valid_datetime b ->
  String.compare (isoformat a) (isoformat b)
  = (chronological a ?= chronological b).
Proof.
  intros (Hy1 & Hm1 & Hd1 & Hh1 & Hi1 & Hs1 & Hu1)
         (Hy2 & Hm2 & Hd2 & Hh2 & Hi2 & Hs2 & Hu2).
  rewrite !isoformat_shape.
  rewrite zfill4_compare by lia. by_field.
  rewrite (compare_append_same "-"), zfill2_compare by lia. by_field.
  rewrite (compare_append_same "-"), zfill2_compare by lia. by_field.
  rewrite (compare_append_same "T"), zfill2_compare by lia. by_field.
  rewrite (compare_append_same ":"), zfill2_compare by lia. by_field.
  rewrite (compare_append_same ":"), zfill2_compare by lia. by_field.
  rewrite stamp_tail_compare by lia.
  unfold chronological.
  destruct (Z.compare_spec (microsecond a) (microsecond b)); symmetry;
    [apply Z.compare_eq_iff | apply Z.compare_lt_iff | apply Z.compare_gt_iff];
    lia.
Qed.

Lemma stamps_order_as_time_witness :
  (valid_datetime just_before_eleven /\ valid_datetime eleven_o_clock) /\
  String.compare (isoformat just_before_eleven) (isoformat eleven_o_clock)
  = (chronological just_before_eleven ?= chronological eleven_o_clock).
Proof.
  assert (H1 : valid_datetime just_before_eleven)
    by (unfold valid_datetime; simpl; lia).
  assert (H2 : valid_datetime eleven_o_clock)
    by (unfold valid_datetime; simpl; lia).
  split; [exact (conj H1 H2)|].
  exact (stamps_order_as_time just_before_eleven eleven_o_clock H1 H2).
Defined.

(** X18. Two times of the calendar have the same document id exactly when
    they fall in the same minute: cycles in different minutes never write
    to the same document. *)
Theorem doc_id_identifies_minute (a b : datetime) :
  valid_datetime a -> valid_datetime b ->
  (strftime_doc_id a = strftime_doc_id b <-> minute_of a = minute_of b).
Proof.
  intros (Hy1 & Hm1 & Hd1 & Hh1 & Hi1 & Hs1 & Hu1)
         (Hy2 & Hm2 & Hd2 & Hh2 & Hi2 & Hs2 & Hu2).
  split; [|apply strftime_doc_id_minute].
  intros Heq.
  assert (Hc : String.compare (strftime_doc_id a) (strftime_doc_id b) = Eq)
    by (rewrite Heq; apply string_compare_refl).
  rewrite !strftime_doc_id_shape in Hc.
  rewrite zfill4_compare in Hc by lia.
  destruct (Z.compare_spec (year a) (year b)) as [E1| |]; try discriminate.
  rewrite zfill2_compare in Hc by lia.
  destruct (Z.compare_spec (month a) (month b)) as [E2| |]; try discriminate.
  rewrite zfill2_compare in Hc by lia.
  destruct (Z.compare_spec (day a) (day b)) as [E3| |]; try discriminate.
  rewrite (compare_append_same "_"), zfill2_compare in Hc by lia.
  destruct (Z.compare_spec (hour a) (hour b)) as [E4| |]; try discriminate.
  rewrite zfill2_compare in Hc by lia.
  destruct (Z.compare_spec (minute a) (minute b)) as [E5| |]; try discriminate.
  unfold minute_of. congruence.
Qed.

Lemma doc_id_identifies_minute_witness :
  (valid_datetime ten_o_clock /\ valid_datetime shortly_after_ten) /\
  (strftime_doc_id ten_o_clock = strftime_doc_id shortly_after_ten
   <-> minute_of ten_o_clock = minute_of shortly_after_ten).
Proof.
  assert (H1 : valid_datetime ten_o_clock)
    by (unfold valid_datetime; simpl; lia).
  assert (H2 : valid_datetime shortly_after_ten)
    by (unfold valid_datetime; simpl; lia).
  split; [exact (conj H1 H2)|].
  exact (doc_id_identifies_minute ten_o_clock shortly_after_ten H1 H2).
Defined.

(** * Further properties of a collection cycle *)

(** X19. When the source answers every level with an empty list, or with
    a body that has no data at all, the cycle succeeds all the same: it
    counts 0 records three times and stores a snapshot whose three
    sequences are empty. *)
Theorem collect_without_data (API_KEY : string) (source : Source)
    (now : datetime) (db : Store) :
  (forall level, In level levels ->
     source level = Ok None \/ source level = Ok (Some [])) ->
  collect API_KEY API_KEY source now db
  = (Ok {| status := "success";
           doc_id := strftime_doc_id now;
           counts := (0%nat, 0%nat, 0%nat) |},
     document_set (strftime_doc_id now)
       {| ts := isoformat now;
          date := strftime_date now;
          campaign := [];
          adset := [];
          ad := [] |} db).
Proof.
  intros H.
  assert (Hg : forall level, In level levels ->
                 get_meta_insights source level = Ok []).
  { intros level Hl. unfold get_meta_insights.
    destruct (H level Hl) as [-> | ->]; reflexivity. }
  unfold collect, collect_try. rewrite verify_api_key_same.
  rewrite !Hg by (simpl; auto). reflexivity.
Qed.

Lemma collect_without_data_witness :
  (forall level, In level levels ->
     no_data level = Ok None \/ no_data level = Ok (Some [])) /\
  collect "secret" "secret" no_data half_past_ten store_after_first
  = (Ok {| status := "success";
           doc_id := strftime_doc_id half_past_ten;
           counts := (0%nat, 0%nat, 0%nat) |},
     document_set (strftime_doc_id half_past_ten)
       {| ts := isoformat half_past_ten;
          date := strftime_date half_past_ten;
          campaign := [];
          adset := [];
          ad := [] |} store_after_first).
Proof.
  assert (H : forall level, In level levels ->
                no_data level = Ok None \/ no_data level = Ok (Some []))
    by (intros level _; left; reflexivity).
  split; [exact H|].
  exact (collect_without_data "secret" no_data half_past_ten
           store_after_first H).
Defined.

Lemma entry_metrics_raise (item : Raw.item) (e : exn) :
  metrics item = Raise e ->
  campaign_entry item = Raise e /\
  adset_entry item = Raise e /\
  ad_entry item = Raise e.
Proof.
  intros H. unfold campaign_entry, adset_entry, ad_entry. rewrite H. auto.
Qed.

(** X20. One record that cannot be normalised, whatever the reason (its
    spend, the value of its target action or the value of its cost per
    action), fails the whole cycle at whatever level it is fetched: the
    answer is a 500 and the store is left as it was, the records that
    could be normalised included. *)
Theorem malformed_record_fails_cycle (API_KEY : string) (source : Source)
    (now : datetime) (db : Store) (level : string) (items : list Raw.item)
    (item : Raw.item) (e : exn) :
  In level levels ->
  source level = Ok (Some items) ->
  In item items ->
  metrics item = Raise e ->
  collect API_KEY API_KEY source now db = (Raise (HTTPException 500), db).
Proof.
  intros Hl Hdata Hin Hm.
  apply get_meta_insights_data in Hdata.
  destruct (entry_metrics_raise item e Hm) as (Hc & Ha & Hd).
  assert (Hr : exists e', collect_try source now db = Raise e').
  { unfold collect_try.
    destruct Hl as [<-|[<-|[<-|[]]]].
    - rewrite Hdata. cbn [bind].
      destruct (get_meta_insights source "adset"); cbn [bind]; [|eauto].
      destruct (get_meta_insights source "ad"); cbn [bind]; [|eauto].
      destruct (for_each_raise campaign_entry items item e Hin Hc) as [e' ->].
      cbn [bind]. eauto.
    - destruct (get_meta_insights source "campaign"); cbn [bind]; [|eauto].
      rewrite Hdata. cbn [bind].
      destruct (get_meta_insights source "ad"); cbn [bind]; [|eauto].
      destruct (for_each campaign_entry _); cbn [bind]; [|eauto].
      destruct (for_each_raise adset_entry items item e Hin Ha) as [e' ->].
      cbn [bind]. eauto.
    - destruct (get_meta_insights source "campaign"); cbn [bind]; [|eauto].
      destruct (get_meta_insights source "adset"); cbn [bind]; [|eauto].
      rewrite Hdata. cbn [bind].
      destruct (for_each campaign_entry _); cbn [bind]; [|eauto].
      destruct (for_each adset_entry _); cbn [bind]; [|eauto].
      destruct (for_each_raise ad_entry items item e Hin Hd) as [e' ->].
      cbn [bind]. eauto. }
  destruct Hr as [e' Hr]. now apply (collect_raise API_KEY source now db e').
Qed.

Lemma malformed_record_fails_cycle_witness :
  (In "campaign" levels /\
   campaigns_only (second_fetch ++ [nan_count_item])%list "campaign"
   = Ok (Some (second_fetch ++ [nan_count_item])%list) /\
   In nan_count_item (second_fetch ++ [nan_count_item])%list /\
   metrics nan_count_item = Raise ValueError) /\
  collect "secret" "secret"
    (campaigns_only (second_fetch ++ [nan_count_item])%list)
    half_past_ten store_after_first
  = (Raise (HTTPException 500), store_after_first).
Proof.
  assert (H1 : In "campaign" levels) by (simpl; auto).
  assert (H2 : campaigns_only (second_fetch ++ [nan_count_item])%list "campaign"
               = Ok (Some (second_fetch ++ [nan_count_item])%list))
    by reflexivity.
  assert (H3 : In nan_count_item (second_fetch ++ [nan_count_item])%list)
    by (apply in_or_app; right; left; reflexivity).
  assert (H4 : metrics nan_count_item = Raise ValueError)
    by (vm_compute; reflexivity).
  split; [exact (conj H1 (conj H2 (conj H3 H4)))|].
  exact (malformed_record_fails_cycle "secret"
           (campaigns_only (second_fetch ++ [nan_count_item])%list)
           half_past_ten store_after_first "campaign"
           (second_fetch ++ [nan_count_item])%list nan_count_item ValueError
           H1 H2 H3 H4).
Defined.

(** X21. The extraction of the conversions raises exactly when there is a
    first entry with the target action type and either [float] raises on
    its value (0 when it has none), or the float is a NaN, a
    [ValueError], or an infinity, an [OverflowError]. *)
Theorem extract_action_value_errors (entries : option (list Raw.action))
    (action_type : string) (e : exn) :
  extract_action_value entries action_type = Raise e <->
  exists a,
    first_match (get entries []) action_type = Some a /\
    (py_float (get (Raw.value a) (Num (Int 0))) = Raise e \/
     (py_float (get (Raw.value a) (Num (Int 0))) = Ok S754_nan /\
      e = ValueError) \/
     (exists s, py_float (get (Raw.value a) (Num (Int 0)))
                = Ok (S754_infinity s) /\
                e = OverflowError)).
Proof.
  unfold extract_action_value.
  destruct (falsy entries) eqn:Hf.
  - rewrite (falsy_get _ Hf). simpl.
    split; [discriminate | intros (a & Ha & _); discriminate].
  - destruct (first_match (get entries []) action_type) as [a|].
    + destruct (py_float (get (Raw.value a) (Num (Int 0)))) as [x|e'] eqn:Hp;
        cbn [bind].
      * split.
        -- intros H. exists a. split; [reflexivity|]. rewrite Hp. right.
           destruct x as [s|s| |s m ex]; simpl in H; try discriminate H.
           ++ injection H as <-. right. exists s. split; reflexivity.
           ++ injection H as <-. left. split; reflexivity.
        -- intros (a' & Ha & Hcase). injection Ha as <-.
           rewrite Hp in Hcase.
           destruct Hcase as [H|[[H ->]|(s & H & ->)]].
           ++ discriminate H.
           ++ injection H as ->. reflexivity.
           ++ injection H as ->. reflexivity.
      * split.
        -- intros H. injection H as ->. exists a. auto.
        -- intros (a' & Ha & Hcase). injection Ha as <-.
           rewrite Hp in Hcase.
           destruct Hcase as [H|[[H _]|(s & H & _)]]; congruence.
    + split; [discriminate | intros (a & Ha & _); discriminate].
Qed.

Lemma extract_action_value_errors_witness :
  extract_action_value (Some [action ACTION_TYPE "inf"]) ACTION_TYPE
  = Raise OverflowError.
Proof.
  apply (proj2 (extract_action_value_errors
                  (Some [action ACTION_TYPE "inf"]) ACTION_TYPE
                  OverflowError)).
  exists (action ACTION_TYPE "inf"). split; [vm_compute; reflexivity|].
  right. right. exists false. split; [vm_compute; reflexivity | reflexivity].
Defined.
